(** * booter: iPXE request handler and image factory client

    A shallow embedding of [internal/server/imagefactory/client.go] and
    [internal/server/ipxe/handler.go], followed by the properties of the
    boot flow stated in the specification.

    Go strings and byte slices are byte sequences ([string]); Go [int] is
    [Z]; a Go result pair [(T, error)] is a pair [T * option error]; a
    [map[string][]string] (headers, query values) is a [gmap]. *)

From stdpp Require Import base strings list gmap pretty.
From Stdlib Require Import ZArith.

Local Open Scope string_scope.
Local Open Scope Z_scope.
Local Open Scope list_scope.

(** ** Errors *)

(** Go [error] values.  [fmt.Errorf] without [%w] yields a plain message;
    with [%w] it yields a wrapper which keeps the formatted message and the
    wrapped error. *)
Inductive error : Type :=
| errorString (s : string)
| wrapError (msg : string) (err : error).

(** [err.Error()] *)
Definition Error (e : error) : string :=
  match e with
  | errorString s => s
  | wrapError msg _ => msg
  end.

(** [fmt.Errorf(prefix + "%w", err)] *)
Definition Errorf_w (prefix : string) (err : error) : error :=
  wrapError (prefix +:+ Error err) err.

(** [errors.Unwrap] *)
Definition Unwrap (e : error) : option error :=
  match e with
  | errorString _ => None
  | wrapError _ err => Some err
  end.

#[global] Instance error_eq_dec : EqDecision error.
Proof. solve_decision. Defined.

(** ** Substrings *)

(** [strings.HasPrefix(s, p)] *)
Fixpoint HasPrefix (s p : string) : bool :=
  match p, s with
  | EmptyString, _ => true
  | String c p', String d s' => bool_decide (c = d) && HasPrefix s' p'
  | String _ _, EmptyString => false
  end.

(** [strings.Contains(s, sub)] *)
Fixpoint Contains (s sub : string) : bool :=
  HasPrefix s sub ||
  match s with
  | EmptyString => false
  | String _ s' => Contains s' sub
  end.

(** ** The outside world: log output and network calls *)

Inductive Level : Type := DebugLevel | InfoLevel | WarnLevel | ErrorLevel.

(** [zap.Field] *)
Inductive Field : Type :=
| zap_String (key val : string)
| zap_Strings (key : string) (vals : list string)
| zap_Error (err : error).

(** [schematic.Schematic], reduced to the fields the client fills in. *)
Module schematic.

Record Schematic : Type := {
  ExtraKernelArgs : list string;
  OfficialExtensions : list string
}.

End schematic.

Inductive Event : Type :=
| EvLog (lvl : Level) (msg : string) (fields : list Field)
| EvLogf (lvl : Level) (format : string) (args : list string)
         (fields : list Field)
| EvSchematicCreate (sch : schematic.Schematic)
| EvVersions.

(** A network call is a request to the image factory. *)
Definition isNetworkCall (e : Event) : bool :=
  match e with
  | EvSchematicCreate _ | EvVersions => true
  | EvLog _ _ _ | EvLogf _ _ _ _ => false
  end.

(** ** Effects on the outside world *)

(** A computation that logs or calls the image factory yields its result
    together with the events it caused, oldest first.  It cannot see or
    change the events that came before it. *)
Definition Eff (A : Type) : Type := A * list Event.

#[global] Instance Eff_ret : MRet Eff := fun A a => (a, []).

#[global] Instance Eff_bind : MBind Eff := fun A B k m =>
  let (a, t) := m in let (b, t') := k a in (b, t ++ t').

Definition emit (e : Event) : Eff unit := (tt, [e]).

(** [zap.Logger]: the fields attached with [With], in order. *)
Record Logger : Type := { context : list Field }.

Definition With (l : Logger) (fields : list Field) : Logger :=
  {| context := context l ++ fields |}.

Definition log (lvl : Level) (l : Logger) (msg : string) (fields : list Field)
  : Eff unit :=
  emit (EvLog lvl msg (context l ++ fields)).

(** [logger.Sugar().Warnf(format, args...)]: the message is kept unformatted,
    and the sugared logger carries the fields of the logger it wraps. *)
Definition Warnf (l : Logger) (format : string) (args : list string) : Eff unit :=
  emit (EvLogf WarnLevel format args (context l)).

(** ** Semantic versions *)

Module semver.

(** Modelled from the spec: the semantic-version library
    ([github.com/blang/semver/v4]) is a dependency and not part of the
    sources; [Version], [PRVersion] and the comparison follow
    "semantic-version ordering": major, minor and patch numerically, then a
    version without pre-release identifiers above one with them, then the
    identifiers pairwise (numeric below alphanumeric), the longer list
    winning a tie. *)
Record PRVersion : Type := {
  VersionStr : string;
  VersionNum : N;
  IsNum : bool
}.

Record Version : Type := {
  Major : N;
  Minor : N;
  Patch : N;
  Pre : list PRVersion;
  Build : list string
}.

Definition cmpN (a b : N) : Z :=
  if decide (a = b) then 0 else if decide (b < a)%N then 1 else -1.

Definition cmpString (a b : string) : Z :=
  match String.compare a b with
  | Eq => 0
  | Lt => -1
  | Gt => 1
  end.

Definition PRVersion_Compare (v o : PRVersion) : Z :=
  if IsNum v && negb (IsNum o) then -1
  else if negb (IsNum v) && IsNum o then 1
  else if IsNum v && IsNum o then cmpN (VersionNum v) (VersionNum o)
  else cmpString (VersionStr v) (VersionStr o).

Fixpoint comparePre (v o : list PRVersion) : Z :=
  match v, o with
  | [], [] => 0
  | [], _ :: _ => -1
  | _ :: _, [] => 1
  | x :: v', y :: o' =>
      let comp := PRVersion_Compare x y in
      if decide (comp = 0) then comparePre v' o'
      else if decide (comp = 1) then 1 else -1
  end.

Definition Compare (v o : Version) : Z :=
  if decide (Major v ≠ Major o) then
    if decide (Major o < Major v)%N then 1 else -1
  else if decide (Minor v ≠ Minor o) then
    if decide (Minor o < Minor v)%N then 1 else -1
  else if decide (Patch v ≠ Patch o) then
    if decide (Patch o < Patch v)%N then 1 else -1
  else
    match Pre v, Pre o with
    | [], [] => 0
    | [], _ :: _ => 1
    | _ :: _, [] => -1
    | pv, po => comparePre pv po
    end.

(** [v.GT(o)] *)
Definition GT (v o : Version) : bool := bool_decide (Compare v o = 1).

End semver.

(** ** The image factory client ([imagefactory/client.go]) *)

Module imagefactory.

(** [client.Client] of the image factory service: what the service answers
    to each request.  Issuing a request is an event of the outside world. *)
Record FactoryClient : Type := {
  SchematicCreate_reply : schematic.Schematic -> string * option error;
  Versions_reply : list string * option error
}.

Definition SchematicCreate (fc : FactoryClient) (sch : schematic.Schematic)
  : Eff (string * option error) :=
  emit (EvSchematicCreate sch) ;; mret (SchematicCreate_reply fc sch).

Definition Versions (fc : FactoryClient) : Eff (list string * option error) :=
  emit EvVersions ;; mret (Versions_reply fc).

(** [Client] is an image factory client. *)
Record Client : Type := {
  factoryClient : FactoryClient;
  logger : Logger;
  pxeBaseURL : string;
  secureBootEnabled : bool
}.

(** [GetIPXEURL] returns the iPXE URL for the given schematic ID, Talos
    version, and architecture.  It takes no context and touches neither the
    logger nor the factory client. *)
Definition GetIPXEURL (c : Client) (schematicID talosVersion arch : string)
  : string * option error :=
  if decide (schematicID = "") then
    ("", Some (errorString "schematic ID is required"))
  else if decide (talosVersion = "") then
    ("", Some (errorString "talos version is required"))
  else if decide (arch = "") then
    ("", Some (errorString "arch is required"))
  else
    let ipxeURL :=
      pxeBaseURL c +:+ "/pxe/" +:+ schematicID +:+ "/" +:+ talosVersion
        +:+ "/metal-" +:+ arch in
    let ipxeURL :=
      if secureBootEnabled c then ipxeURL +:+ "-secureboot" else ipxeURL in
    (ipxeURL, None).

Section Libraries.

(** Functions of the dependencies, taken as given: [Schematic.Marshal] of
    the image factory package, and [ParseTolerant] and [Version.String] of
    the semantic-version library. *)
Variable Marshal : schematic.Schematic -> string * option error.
Variable ParseTolerant : string -> semver.Version * option error.
Variable Version_String : semver.Version -> string.

(** [EnsureSchematic] ensures a schematic exists on the image factory and
    returns its ID.  The ten-second timeout put on the context shows only
    in what the factory answers: a call that times out answers an error. *)
Definition EnsureSchematic (c : Client) (extensions extraKernelArgs : list string)
  : Eff (string * option error) :=
  let logger :=
    With (logger c) [zap_Strings "extensions" extensions;
                     zap_Strings "extra_kernel_args" extraKernelArgs] in
  log DebugLevel logger "ensure schematic" [] ;;
  let sch := {| schematic.ExtraKernelArgs := extraKernelArgs;
                schematic.OfficialExtensions := extensions |} in
  let (marshaled, err) := Marshal sch in
  match err with
  | Some err => mret ("", Some (Errorf_w "failed to marshal schematic: " err))
  | None =>
      log DebugLevel logger "generated schematic"
          [zap_String "schematic" marshaled] ;;
      '(schematicID, err) ← SchematicCreate (factoryClient c) sch ;
      match err with
      | Some err => mret ("", Some (Errorf_w "failed to create schematic: " err))
      | None => mret (schematicID, None)
      end
  end.

(** One iteration of the loop over the reported versions. *)
Definition stableStep (c : Client) (latestStable : option semver.Version)
    (v : string) : Eff (option semver.Version) :=
  let (sv, err) := ParseTolerant v in
  match err with
  | Some err =>
      log WarnLevel (logger c) "failed to parse version"
          [zap_String "version" v; zap_Error err] ;;
      mret latestStable
  | None =>
      (* Skip pre-releases *)
      if decide (0 < length (semver.Pre sv))%nat then mret latestStable
      else
        match latestStable with
        | None => mret (Some sv)
        | Some l => if semver.GT sv l then mret (Some sv) else mret latestStable
        end
  end.

Fixpoint rangeVersions (c : Client) (latestStable : option semver.Version)
    (versions : list string) : Eff (option semver.Version) :=
  match versions with
  | [] => mret latestStable
  | v :: versions' =>
      latestStable' ← stableStep c latestStable v ;
      rangeVersions c latestStable' versions'
  end.

(** [GetLatestStableVersion] returns the latest stable Talos version from
    the image factory. *)
Definition GetLatestStableVersion (c : Client) : Eff (string * option error) :=
  '(versions, err) ← Versions (factoryClient c) ;
  match err with
  | Some err => mret ("", Some err)
  | None =>
      latestStable ← rangeVersions c None versions ;
      match latestStable with
      | None => mret ("", Some (errorString "no stable versions found"))
      | Some sv => mret (Version_String sv, None)
      end
  end.

(** The versions among [versions] that parse, in order. *)
Definition parsedVersions (versions : list string) : list semver.Version :=
  omap (fun v => match ParseTolerant v with
                 | (sv, None) => Some sv
                 | (_, Some _) => None
                 end) versions.

(** The stable ones among them: those without pre-release identifiers. *)
Definition stableVersions (versions : list string) : list semver.Version :=
  filter (fun sv => semver.Pre sv = []) (parsedVersions versions).

(** A version string that parses to a pre-release. *)
Definition isPreRelease (v : string) : bool :=
  match ParseTolerant v with
  | (sv, None) => bool_decide (semver.Pre sv ≠ [])
  | (_, Some _) => false
  end.

End Libraries.

(** What one round of the loop does to the latest stable version so far. *)
Definition pick (latestStable : option semver.Version) (sv : semver.Version)
  : option semver.Version :=
  match latestStable with
  | None => Some sv
  | Some l => if semver.GT sv l then Some sv else Some l
  end.

(** Strictly lower major.minor.patch. *)
Definition below (o v : semver.Version) : Prop :=
  (semver.Major o < semver.Major v
   ∨ semver.Major o = semver.Major v
     ∧ (semver.Minor o < semver.Minor v
        ∨ semver.Minor o = semver.Minor v ∧ semver.Patch o < semver.Patch v))%N.

(** The warnings the loop over the reported versions logs: one for each
    version that does not parse, in the order of the list. *)
Definition parseWarnings
    (ParseTolerant : string -> semver.Version * option error)
    (c : Client) (versions : list string) : list Event :=
  omap (fun v => match ParseTolerant v with
                 | (_, Some err) =>
                     Some (EvLog WarnLevel "failed to parse version"
                             (context (logger c)
                              ++ [zap_String "version" v; zap_Error err]))
                 | (_, None) => None
                 end) versions.

Section Construction.

(** Taken as given: [client.New] of the image factory package, which
    builds the factory client for a base URL or rejects the URL. *)
Variable client_New : string -> FactoryClient * option error.

(** [NewClient] creates a new image factory client. *)
Definition NewClient (baseURL pxeBaseURL : string) (secureBootEnabled : bool)
    (logger : Logger) : option Client * option error :=
  match client_New baseURL with
  | (_, Some err) => (None, Some err)
  | (factoryClient, None) =>
      (Some {| pxeBaseURL := pxeBaseURL;
               factoryClient := factoryClient;
               secureBootEnabled := secureBootEnabled;
               logger := logger |}, None)
  end.

End Construction.

End imagefactory.

(** ** HTTP requests and responses ([net/http]) *)

Module http.

Definition StatusOK : Z := 200.
Definition StatusNotFound : Z := 404.
Definition StatusInternalServerError : Z := 500.

(** [url.Values] and its [Get]: the first value of the key, or the empty
    string when the key is absent. *)
Definition Values_Get (query : gmap string (list string)) (key : string) : string :=
  match query !! key with
  | Some (v :: _) => v
  | Some [] | None => ""
  end.

(** [http.Request], reduced to the path wildcards and the parsed query. *)
Record Request : Type := {
  PathValues : gmap string string;
  URL_Query : gmap string (list string)
}.

(** [req.PathValue(name)] *)
Definition PathValue (req : Request) (name : string) : string :=
  default "" (PathValues req !! name).

(** [http.ResponseWriter]: the response as the handler has produced it so
    far.  [status] is [None] until the header is written; [body] collects
    the bytes handed to [Write]; [writeError] is what the connection
    answers to a [Write] ([None]: the write succeeds). *)
Record ResponseWriter : Type := {
  header : gmap string (list string);
  status : option Z;
  body : string;
  writeError : option error
}.

(** A response writer as the server hands it to a handler. *)
Definition newResponseWriter (writeError : option error) : ResponseWriter :=
  {| header := ∅; status := None; body := ""; writeError := writeError |}.

(** [w.Header().Set(key, value)]; headers set after the header was written
    are not part of the response. *)
Definition Header_Set (key value : string) (w : ResponseWriter) : ResponseWriter :=
  match status w with
  | None =>
      {| header := <[key := [value]]> (header w); status := status w;
         body := body w; writeError := writeError w |}
  | Some _ => w
  end.

(** [w.WriteHeader(statusCode)]; only the first call counts. *)
Definition WriteHeader (statusCode : Z) (w : ResponseWriter) : ResponseWriter :=
  match status w with
  | None =>
      {| header := header w; status := Some statusCode;
         body := body w; writeError := writeError w |}
  | Some _ => w
  end.

(** [w.Write(data)]; writes the header with [StatusOK] first if it was not
    written yet. *)
Definition Write (data : string) (w : ResponseWriter) : option error * ResponseWriter :=
  let w := WriteHeader StatusOK w in
  (writeError w,
   {| header := header w; status := status w;
      body := body w +:+ data; writeError := writeError w |}).

End http.

(** ** The iPXE handler ([ipxe/handler.go]) *)

Module ipxe.

(** The line feed, byte 10. *)
Definition newline : string :=
  String (Ascii.Ascii false true false true false false false false) EmptyString.

(** [fmt.Sprintf(ipxeScriptTemplateFormat, url)] *)
Definition ipxeScriptTemplateFormat (url : string) : string :=
  "#!ipxe" +:+ newline +:+ "chain --replace " +:+ url +:+ newline.

Definition archArm64 : string := "arm64".
Definition archAmd64 : string := "amd64".

(** [initScriptName] is the name of the iPXE init script served by the
    HTTP server. *)
Definition initScriptName : string := "init.ipxe".

(** [bootScriptName] is the name of the iPXE boot script served by the
    HTTP server. *)
Definition bootScriptName : string := "boot.ipxe".

(** [ImageFactoryClient] represents an image factory client which ensures a
    schematic exists on image factory, and returns the PXE URL to it. *)
Record ImageFactoryClient : Type := {
  EnsureSchematic : list string -> list string -> Eff (string * option error);
  GetIPXEURL : string -> string -> string -> Eff (string * option error)
}.

(** [HandlerOptions] represents the options for the iPXE handler. *)
Record HandlerOptions : Type := {
  APIAdvertiseAddress : string;
  TalosVersion : string;
  ExtraKernelArgs : string;
  SchematicID : string;
  Extensions : list string;
  APIPort : Z
}.

(** [Handler] represents an iPXE handler. *)
Record Handler : Type := {
  imageFactoryClient : ImageFactoryClient;
  logger : Logger;
  kernelArgs : list string;
  initScript : string;
  options : HandlerOptions
}.

(** A method invocation on the handler's image factory client. *)
Inductive Call : Type :=
| CallEnsureSchematic (extensions extraKernelArgs : list string)
| CallGetIPXEURL (schematicID talosVersion arch : string).

(** What serving a request acts on: the response writer, the invocations
    made on the image factory client so far, and the events of the outside
    world so far. *)
Record World : Type := {
  w : http.ResponseWriter;
  calls : list Call;
  events : list Event
}.

Definition M (A : Type) : Type := World -> A * World.

#[global] Instance M_ret : MRet M := fun A a s => (a, s).

#[global] Instance M_bind : MBind M := fun A B k m s =>
  let (a, s') := m s in k a s'.

(** Run a computation on the outside world from within the handler. *)
Definition liftEff {A} (m : Eff A) : M A := fun s =>
  (m.1, {| w := w s; calls := calls s; events := events s ++ m.2 |}).

(** Invoke the client, noting the invocation. *)
Definition invoke {A} (c : Call) (m : Eff A) : M A := fun s =>
  liftEff m {| w := w s; calls := calls s ++ [c]; events := events s |}.

Definition onWriter (f : http.ResponseWriter -> http.ResponseWriter) : M unit :=
  fun s => (tt, {| w := f (w s); calls := calls s; events := events s |}).

Definition Write (data : string) : M (option error) := fun s =>
  let (err, w') := http.Write data (w s) in
  (err, {| w := w'; calls := calls s; events := events s |}).

Definition handleInitScript (handler : Handler) : M unit :=
  onWriter (http.Header_Set "Content-Type" "text/plain") ;;
  err ← Write (initScript handler) ;
  match err with
  | Some err =>
      liftEff (log ErrorLevel (logger handler) "failed to write init script"
                   [zap_Error err])
  | None => mret tt
  end.

Definition bootViaFactoryIPXEScript (handler : Handler) (arch : string)
    (kernelArgs : list string) : M (string * Z * option error) :=
  let schematicID := SchematicID (options handler) in
  '(schematicID, err) ←
    (if decide (schematicID = "") then
       invoke (CallEnsureSchematic (Extensions (options handler)) kernelArgs)
              (EnsureSchematic (imageFactoryClient handler)
                               (Extensions (options handler)) kernelArgs)
     else mret (schematicID, None)) ;
  match err with
  | Some err =>
      mret ("", http.StatusInternalServerError,
            Some (Errorf_w "failed to get schematic IPXE URL: " err))
  | None =>
      '(ipxeURL, err) ←
        invoke (CallGetIPXEURL schematicID (TalosVersion (options handler)) arch)
               (GetIPXEURL (imageFactoryClient handler) schematicID
                           (TalosVersion (options handler)) arch) ;
      match err with
      | Some err =>
          mret ("", http.StatusInternalServerError,
                Some (Errorf_w "failed to get schematic IPXE URL: " err))
      | None =>
          let ipxeScript := ipxeScriptTemplateFormat ipxeURL in
          mret (ipxeScript, http.StatusOK, None)
      end
  end.

Definition consoleKernelArgs (handler : Handler) (arch : string) : list string :=
  if decide (arch = archArm64) then ["console=tty0"; "console=ttyAMA0"]
  else ["console=tty0"; "console=ttyS0"].

(** The architecture as the request goes on with it. *)
Definition normalizedArch (arch : string) : string :=
  if decide (arch ≠ archArm64) then archAmd64 else arch.

(** [ServeHTTP] serves the iPXE request. *)
Definition ServeHTTP (handler : Handler) (req : http.Request) : M unit :=
  let script := http.PathValue req "script" in
  if decide (script = initScriptName) then handleInitScript handler
  else if decide (script = bootScriptName) then
    let query := http.URL_Query req in
    let uuid := http.Values_Get query "uuid" in
    let mac := http.Values_Get query "mac" in
    let arch := http.Values_Get query "arch" in
    let logger' :=
      With (logger handler)
           [zap_String "uuid" uuid; zap_String "mac" mac; zap_String "arch" arch] in
    let arch := normalizedArch arch in
    liftEff (log InfoLevel logger' "handle iPXE boot request" []) ;;
    let consoleKernelArgs := consoleKernelArgs handler arch in
    let kernelArgs := kernelArgs handler ++ consoleKernelArgs in
    liftEff (log DebugLevel logger'
                 "injected console kernel args to the iPXE request"
                 [zap_Strings "console_kernel_args" consoleKernelArgs]) ;;
    '(body, statusCode, err) ← bootViaFactoryIPXEScript handler arch kernelArgs ;
    match err with
    | Some err =>
        liftEff (log ErrorLevel (logger handler) "failed to get iPXE script"
                     [zap_Error err]) ;;
        onWriter (http.WriteHeader http.StatusInternalServerError) ;;
        err ← Write ("failed to get iPXE script: " +:+ Error err) ;
        match err with
        | Some err =>
            liftEff (log ErrorLevel (logger handler)
                         "failed to write error response" [zap_Error err])
        | None => mret tt
        end
    | None =>
        onWriter (http.WriteHeader statusCode) ;;
        err ← Write body ;
        match err with
        | Some err =>
            liftEff (log ErrorLevel (logger handler) "failed to write response"
                         [zap_Error err])
        | None => mret tt
        end
    end
  else
    liftEff (log ErrorLevel (logger handler) "invalid iPXE script"
                 [zap_String "script" script]) ;;
    onWriter (http.WriteHeader http.StatusNotFound).

(** Modelled from the spec: [constants.KernelParamConfig] of the Talos
    machinery package, the kernel argument naming the machine configuration
    URL ([talos.config=http://...]). *)
Definition KernelParamConfig : string := "talos.config".

(** [net.JoinHostPort]: a host containing a colon is bracketed. *)
Definition JoinHostPort (host port : string) : string :=
  if Contains host ":" then "[" +:+ host +:+ "]:" +:+ port
  else host +:+ ":" +:+ port.

(** [strconv.Itoa] *)
Definition Itoa (i : Z) : string := pretty i.

Section Startup.

(** Taken as given: [strings.Fields], and the two functions of this package
    that build the init script and patch the iPXE binaries. *)
Variable Fields : string -> list string.
Variable buildInitScript : string -> Z -> string * option error.
Variable patchBinaries : string -> Logger -> Eff (option error).

(** [NewHandler] creates a new iPXE server. *)
Definition NewHandler (configServerEnabled : bool)
    (imageFactoryClient : ImageFactoryClient) (options : HandlerOptions)
    (logger : Logger) : Eff (option Handler * option error) :=
  let apiHostPort :=
    JoinHostPort (APIAdvertiseAddress options) (Itoa (APIPort options)) in
  let talosConfigURL := "http://" +:+ apiHostPort +:+ "/config?u=${uuid}" in
  let talosConfigKernelArg := KernelParamConfig +:+ "=" +:+ talosConfigURL in
  let rest : Eff (option Handler * option error) :=
    let (initScript, err) :=
      buildInitScript (APIAdvertiseAddress options) (APIPort options) in
    match err with
    | Some err => mret (None, Some (Errorf_w "failed to build init script: " err))
    | None =>
        log InfoLevel logger "patch iPXE binaries" [] ;;
        err ← patchBinaries initScript logger ;
        match err with
        | Some err => mret (None, Some err)
        | None =>
            log InfoLevel logger "successfully patched iPXE binaries" [] ;;
            let kernelArgs := Fields (ExtraKernelArgs options) in
            kernelArgs ←
              (if configServerEnabled then
                 log DebugLevel logger
                     "injected talos config kernel arg to the iPXE requests"
                     [zap_String "arg" talosConfigKernelArg] ;;
                 mret (kernelArgs ++ [talosConfigKernelArg])
               else mret kernelArgs) ;
            mret (Some {| imageFactoryClient := imageFactoryClient;
                          options := options;
                          kernelArgs := kernelArgs;
                          initScript := initScript;
                          logger := logger |}, None)
        end
    end in
  if decide (SchematicID options ≠ "") then
    if decide ((0 < length (Extensions options))%nat
               ∨ (0 < String.length (ExtraKernelArgs options))%nat)
    then
      mret (None, Some (errorString
              "schematicID cannot be used with extensions or extraKernelArgs"))
    else
      (if configServerEnabled then
         Warnf logger
           ("schematic ID is set explicitly to %q and the config server is enabled (e.g., Omni connection is requested), "
            +:+ "note that if this schematic does not contain the kernel arg %q, the machines will not be able to connect to the config server")
           [SchematicID options; talosConfigKernelArg]
       else mret tt) ;;
      rest
  else rest.

End Startup.

(** The client of [imagefactory] as the handler's [ImageFactoryClient]. *)
Definition ofClient (Marshal : schematic.Schematic -> string * option error)
    (c : imagefactory.Client) : ImageFactoryClient :=
  {| EnsureSchematic := imagefactory.EnsureSchematic Marshal c;
     GetIPXEURL schematicID talosVersion arch :=
       mret (imagefactory.GetIPXEURL c schematicID talosVersion arch) |}.

(** The world as the server hands it to the handler for the next request:
    a new response writer, everything else as it is. *)
Definition nextRequest (s : World) (writeError : option error) : World :=
  {| w := http.newResponseWriter writeError;
     calls := calls s;
     events := events s |}.

Definition isEnsureSchematic (c : Call) : bool :=
  match c with
  | CallEnsureSchematic _ _ => true
  | CallGetIPXEURL _ _ _ => false
  end.

(** The kernel argument pointing a machine at the config server, as
    [NewHandler] builds it. *)
Definition talosConfigKernelArg (options : HandlerOptions) : string :=
  KernelParamConfig +:+ "=" +:+ "http://"
    +:+ JoinHostPort (APIAdvertiseAddress options) (Itoa (APIPort options))
    +:+ "/config?u=${uuid}".

End ipxe.

(** ** Sample data *)

Module sample.

Definition stable (major minor patch : N) : semver.Version :=
  {| semver.Major := major; semver.Minor := minor; semver.Patch := patch;
     semver.Pre := []; semver.Build := [] |}.

Definition beta (major minor patch n : N) : semver.Version :=
  {| semver.Major := major; semver.Minor := minor; semver.Patch := patch;
     semver.Pre := [ {| semver.VersionStr := "beta"; semver.VersionNum := 0;
                        semver.IsNum := false |};
                     {| semver.VersionStr := ""; semver.VersionNum := n;
                        semver.IsNum := true |} ];
     semver.Build := [] |}.

(** A parser knowing four version strings. *)
Definition ParseTolerant (s : string) : semver.Version * option error :=
  if decide (s = "v1.9.5") then (stable 1 9 5, None)
  else if decide (s = "v1.10.2") then (stable 1 10 2, None)
  else if decide (s = "v1.10.0") then (stable 1 10 0, None)
  else if decide (s = "v1.11.0-beta.0") then (beta 1 11 0 0, None)
  else (stable 0 0 0, Some (errorString "No Major.Minor.Patch elements found")).

Definition Version_String (v : semver.Version) : string :=
  pretty (semver.Major v) +:+ "." +:+ pretty (semver.Minor v) +:+ "."
    +:+ pretty (semver.Patch v).

Definition Marshal (sch : schematic.Schematic) : string * option error :=
  ("customization: {}", None).

Definition noLogger : Logger := {| context := [] |}.

Definition factoryClient (versions : list string) : imagefactory.FactoryClient :=
  {| imagefactory.SchematicCreate_reply := fun sch =>
       (if decide ("console=ttyAMA0" ∈ schematic.ExtraKernelArgs sch)
        then "schematic-arm" else "schematic-pc", None);
     imagefactory.Versions_reply := (versions, None) |}.

Definition client (versions : list string) : imagefactory.Client :=
  {| imagefactory.factoryClient := factoryClient versions;
     imagefactory.logger := noLogger;
     imagefactory.pxeBaseURL := "https://pxe.factory.talos.dev";
     imagefactory.secureBootEnabled := false |}.

Definition reported : list string :=
  ["v1.9.5"; "v1.11.0-beta.0"; "v1.10.2"; "latest"; "v1.10.0"].

Definition options (schematicID : string) : ipxe.HandlerOptions :=
  {| ipxe.APIAdvertiseAddress := "10.0.0.1";
     ipxe.TalosVersion := "v1.2.3";
     ipxe.ExtraKernelArgs := "";
     ipxe.SchematicID := schematicID;
     ipxe.Extensions := [];
     ipxe.APIPort := 50084 |}.

Definition handler (schematicID : string) : ipxe.Handler :=
  {| ipxe.imageFactoryClient := ipxe.ofClient Marshal (client []);
     ipxe.logger := noLogger;
     ipxe.kernelArgs := ["talos.platform=metal"];
     ipxe.initScript := "#!ipxe" +:+ ipxe.newline +:+ "dhcp" +:+ ipxe.newline;
     ipxe.options := options schematicID |}.

(** A client whose schematic depends on the last kernel argument. *)
Definition byConsole : ipxe.ImageFactoryClient :=
  {| ipxe.EnsureSchematic extensions extraKernelArgs :=
       mret (if decide (last extraKernelArgs = Some "console=ttyAMA0")
             then "schematic-arm" else "schematic-pc", None);
     ipxe.GetIPXEURL schematicID talosVersion arch :=
       mret ("https://pxe.factory.talos.dev/pxe/" +:+ schematicID, None) |}.

(** A marshaller that rejects every schematic. *)
Definition brokenMarshal (sch : schematic.Schematic) : string * option error :=
  ("", Some (errorString "yaml: unsupported value")).

(** A [client.New] that accepts https URLs only. *)
Definition client_New (baseURL : string) : imagefactory.FactoryClient * option error :=
  if HasPrefix baseURL "https://" then (factoryClient reported, None)
  else (factoryClient [], Some (errorString "unsupported protocol scheme")).

(** Two builds of one release, and an older release. *)
Definition buildA : semver.Version :=
  {| semver.Major := 1; semver.Minor := 10; semver.Patch := 2;
     semver.Pre := []; semver.Build := ["a"] |}.

Definition buildB : semver.Version :=
  {| semver.Major := 1; semver.Minor := 10; semver.Patch := 2;
     semver.Pre := []; semver.Build := ["b"] |}.

Definition ParseBuilds (s : string) : semver.Version * option error :=
  if decide (s = "1.10.2+a") then (buildA, None)
  else if decide (s = "1.10.2+b") then (buildB, None)
  else ParseTolerant s.

Definition Version_String_build (v : semver.Version) : string :=
  Version_String v +:+
  match semver.Build v with
  | [] => ""
  | b :: _ => "+" +:+ b
  end.

(** A client that cannot reach the image factory. *)
Definition unreachable : ipxe.ImageFactoryClient :=
  {| ipxe.EnsureSchematic extensions extraKernelArgs :=
       mret ("", Some (Errorf_w "failed to create schematic: "
                         (errorString "connection refused")));
     ipxe.GetIPXEURL schematicID talosVersion arch :=
       mret ("", Some (errorString "schematic ID is required")) |}.

(** The handler with another client. *)
Definition withClient (h : ipxe.Handler) (c : ipxe.ImageFactoryClient)
  : ipxe.Handler :=
  {| ipxe.imageFactoryClient := c;
     ipxe.logger := ipxe.logger h;
     ipxe.kernelArgs := ipxe.kernelArgs h;
     ipxe.initScript := ipxe.initScript h;
     ipxe.options := ipxe.options h |}.

Definition request (script : string) (arch : string) : http.Request :=
  {| http.PathValues := {[ "script" := script ]};
     http.URL_Query := {[ "arch" := [arch]; "uuid" := ["4c4c4544"] ]} |}.

Definition world : ipxe.World :=
  {| ipxe.w := http.newResponseWriter None; ipxe.calls := []; ipxe.events := [] |}.

(** A whitespace splitter for strings of plain spaces. *)
Fixpoint fieldsFrom (cur : string) (s : string) : list string :=
  match s with
  | EmptyString => if decide (cur = "") then [] else [cur]
  | String c s' =>
      if decide (c = Ascii.Ascii false false false false false true false false)
      then (if decide (cur = "") then [] else [cur]) ++ fieldsFrom "" s'
      else fieldsFrom (cur +:+ String c EmptyString) s'
  end.

Definition Fields (s : string) : list string := fieldsFrom "" s.

Definition buildInitScript (address : string) (port : Z) : string * option error :=
  ("#!ipxe" +:+ ipxe.newline +:+ "dhcp" +:+ ipxe.newline, None).

Definition patchBinaries (initScript : string) (logger : Logger) : Eff (option error) :=
  mret None.

(** Options asking for an extension and two kernel arguments. *)
Definition customOptions : ipxe.HandlerOptions :=
  {| ipxe.APIAdvertiseAddress := "10.0.0.1";
     ipxe.TalosVersion := "v1.2.3";
     ipxe.ExtraKernelArgs := "talos.dashboard.disabled=1 quiet";
     ipxe.SchematicID := "";
     ipxe.Extensions := ["siderolabs/hello-world-service"];
     ipxe.APIPort := 50084 |}.

(** An init script template that does not render. *)
Definition brokenBuild (address : string) (port : Z) : string * option error :=
  ("", Some (errorString "failed to execute template")).

(** Binaries that cannot be written; the attempt is logged. *)
Definition brokenPatch (initScript : string) (logger : Logger) : Eff (option error) :=
  log DebugLevel logger "patching" [zap_String "name" "undionly.kpxe"] ;;
  mret (Some (errorString "read-only file system")).

End sample.

(** * Properties *)

(** Unfold the handler's steps down to pairs of results and worlds. *)
Ltac unfold_M :=
  unfold ipxe.handleInitScript, ipxe.bootViaFactoryIPXEScript, ipxe.invoke,
    ipxe.liftEff, ipxe.onWriter, ipxe.Write, http.Write, http.WriteHeader,
    http.Header_Set, log, emit;
  unfold mbind, ipxe.M_bind, mret, ipxe.M_ret; cbn.

(** Case analysis on what the image factory client answers. *)
Ltac client_cases :=
  repeat match goal with
  | |- context [ipxe.EnsureSchematic ?c ?x ?k] =>
      destruct (ipxe.EnsureSchematic c x k) as [[? [?|]] ?]; cbn
  | |- context [ipxe.GetIPXEURL ?c ?i ?v ?a] =>
      destruct (ipxe.GetIPXEURL c i v a) as [[? [?|]] ?]; cbn
  end.

(** Enter the boot branch of [ServeHTTP]. *)
Ltac boot_branch Hscript :=
  unfold ipxe.ServeHTTP; rewrite Hscript;
  destruct (decide (ipxe.bootScriptName = ipxe.initScriptName)) as [Heq|_];
    [discriminate Heq|];
  destruct (decide (ipxe.bootScriptName = ipxe.bootScriptName)) as [_|Hne];
    [|contradiction].

(** ** Effects *)

Lemma Eff_bind_fst {A B} (m : Eff A) (k : A -> Eff B) :
  (m ≫= k).1 = (k m.1).1.
Proof.
  unfold mbind, Eff_bind. destruct m as [a t]. simpl.
  destruct (k a) as [b t']. reflexivity.
Qed.

(** ** Substrings *)

Lemma HasPrefix_refl (s : string) : HasPrefix s s = true.
Proof.
  induction s as [|c s IH]; simpl; [reflexivity|].
  rewrite bool_decide_eq_true_2 by reflexivity. exact IH.
Qed.

Lemma append_assoc (a b c : string) : (a +:+ b) +:+ c = a +:+ b +:+ c.
Proof.
  induction a as [|x a IH]; [reflexivity|].
  change (String x ((a +:+ b) +:+ c) = String x (a +:+ b +:+ c)).
  f_equal. exact IH.
Qed.

Lemma Contains_refl (s : string) : Contains s s = true.
Proof.
  destruct s as [|c s]; simpl; [reflexivity|].
  rewrite bool_decide_eq_true_2 by reflexivity.
  rewrite HasPrefix_refl. reflexivity.
Qed.

Lemma Contains_append_r (p s sub : string) :
  Contains s sub = true -> Contains (p +:+ s) sub = true.
Proof.
  intros H. induction p as [|c p IH]; simpl; [exact H|].
  rewrite IH. apply orb_true_r.
Qed.

(** ** The image factory client *)

(** C1: [GetIPXEURL] fails exactly when the schematic ID, the Talos version
    or the architecture is empty; otherwise it returns
    [<pxeBase>/pxe/<schematicID>/<talosVersion>/metal-<arch>], followed by
    [-secureboot] exactly when secure boot is enabled.  Used as the handler's
    client it causes no event at all, so no network call. *)
Theorem GetIPXEURL_spec (c : imagefactory.Client)
    (schematicID talosVersion arch : string) :
  let r := imagefactory.GetIPXEURL c schematicID talosVersion arch in
  let url := imagefactory.pxeBaseURL c +:+ "/pxe/" +:+ schematicID +:+ "/"
               +:+ talosVersion +:+ "/metal-" +:+ arch in
  (r.2 ≠ None ↔ schematicID = "" ∨ talosVersion = "" ∨ arch = "") ∧
  (r.2 = None →
   r.1 = if imagefactory.secureBootEnabled c then url +:+ "-secureboot" else url) ∧
  (∀ Marshal,
     (ipxe.GetIPXEURL (ipxe.ofClient Marshal c) schematicID talosVersion arch).2 = []).
Proof.
  unfold imagefactory.GetIPXEURL. simpl.
  destruct (decide (schematicID = "")) as [Hs|Hs];
    [|destruct (decide (talosVersion = "")) as [Hv|Hv];
      [|destruct (decide (arch = "")) as [Ha|Ha]]]; simpl.
  - split; [|split]; [split; [auto|discriminate] | discriminate | reflexivity].
  - split; [|split]; [split; [auto|discriminate] | discriminate | reflexivity].
  - split; [|split]; [split; [auto|discriminate] | discriminate | reflexivity].
  - split; [|split].
    + split; [congruence | intros [?|[?|?]]; contradiction].
    + intros _. reflexivity.
    + reflexivity.
Qed.

Lemma GetIPXEURL_spec_witness :
  (imagefactory.GetIPXEURL (sample.client []) "img-1" "v1.2.3" "arm64").2 = None ∧
  (imagefactory.GetIPXEURL (sample.client []) "img-1" "v1.2.3" "arm64").1
  = "https://pxe.factory.talos.dev/pxe/img-1/v1.2.3/metal-arm64".
Proof.
  split; [reflexivity|].
  apply (proj1 (proj2 (GetIPXEURL_spec (sample.client []) "img-1" "v1.2.3" "arm64"))).
  reflexivity.
Defined.

Section LatestStable.

Variable ParseTolerant : string -> semver.Version * option error.

Local Abbreviation stableVersions := (imagefactory.stableVersions ParseTolerant).
Local Abbreviation isPreRelease := (imagefactory.isPreRelease ParseTolerant).
Local Abbreviation rangeVersions := (imagefactory.rangeVersions ParseTolerant).
Local Abbreviation pick := imagefactory.pick.
Local Abbreviation below := imagefactory.below.

Lemma GT_stable (v o : semver.Version) :
  semver.Pre v = [] -> semver.Pre o = [] ->
  semver.GT v o = true <-> below o v.
Proof.
  intros Hv Ho. unfold semver.GT, semver.Compare, imagefactory.below.
  rewrite Hv, Ho. rewrite bool_decide_eq_true.
  repeat case_decide; split; intros ?; try lia; try discriminate.
Qed.

Lemma rangeVersions_fst (c : imagefactory.Client) (versions : list string) :
  forall latestStable,
    (rangeVersions c latestStable versions).1
    = foldl pick latestStable (stableVersions versions).
Proof.
  induction versions as [|v versions IH]; intros latestStable; [reflexivity|].
  cbn [imagefactory.rangeVersions]. rewrite Eff_bind_fst, IH.
  unfold imagefactory.stableVersions, imagefactory.parsedVersions,
    imagefactory.stableStep.
  cbn [omap list_omap].
  destruct (ParseTolerant v) as [sv [err|]]; [reflexivity|].
  destruct (decide (0 < length (semver.Pre sv))%nat) as [Hpre|Hpre].
  - rewrite filter_cons_False; [reflexivity|].
    intros Heq. rewrite Heq in Hpre. simpl in Hpre. lia.
  - rewrite filter_cons_True.
    + destruct latestStable as [l|]; [|reflexivity].
      simpl. destruct (semver.GT sv l); reflexivity.
    + destruct (semver.Pre sv); [reflexivity|]. simpl in Hpre. lia.
Qed.

Lemma pick_max (l : list semver.Version) :
  Forall (fun sv => semver.Pre sv = []) l ->
  forall a, semver.Pre a = [] ->
    exists m, foldl pick (Some a) l = Some m ∧ m ∈ a :: l
              ∧ forall x, x ∈ a :: l -> semver.GT x m = false.
Proof.
  induction 1 as [|x l Hx Hl IH]; intros a Ha.
  - exists a. split; [reflexivity|]. split; [left|].
    intros y Hy. apply list_elem_of_singleton in Hy. subst y.
    apply not_true_iff_false. rewrite GT_stable by assumption.
    unfold imagefactory.below. lia.
  - simpl. destruct (semver.GT x a) eqn:Hgt.
    + destruct (IH x Hx) as (m & Hm & Hin & Hmax).
      exists m. split; [exact Hm|]. split; [right; exact Hin|].
      intros y Hy. apply elem_of_cons in Hy as [->|Hy]; [|auto].
      assert (Hpm : semver.Pre m = []).
      { apply elem_of_cons in Hin as [->|Hin]; [assumption|].
        rewrite Forall_forall in Hl. auto. }
      specialize (Hmax x (ltac:(left))).
      apply not_true_iff_false. apply not_true_iff_false in Hmax.
      rewrite GT_stable in * by assumption. unfold imagefactory.below in *. lia.
    + destruct (IH a Ha) as (m & Hm & Hin & Hmax).
      assert (Hpm : semver.Pre m = []).
      { apply elem_of_cons in Hin as [->|Hin]; [assumption|].
        rewrite Forall_forall in Hl. auto. }
      exists m. split; [exact Hm|]. split.
      * apply elem_of_cons in Hin as [->|Hin]; [left | right; right; exact Hin].
      * intros y Hy. apply elem_of_cons in Hy as [->|Hy];
          [apply Hmax; left|].
        apply elem_of_cons in Hy as [->|Hy]; [|apply Hmax; right; exact Hy].
        specialize (Hmax a (ltac:(left))).
        apply not_true_iff_false. apply not_true_iff_false in Hmax, Hgt.
        rewrite GT_stable in * by assumption. unfold imagefactory.below in *. lia.
Qed.

Lemma stableVersions_stable (versions : list string) :
  Forall (fun sv => semver.Pre sv = []) (stableVersions versions).
Proof.
  apply Forall_forall. intros sv Hin.
  apply list_elem_of_filter in Hin. tauto.
Qed.

Lemma stableVersions_skip (versions : list string) :
  stableVersions (filter (fun v => isPreRelease v = false) versions)
  = stableVersions versions.
Proof.
  unfold imagefactory.stableVersions, imagefactory.parsedVersions,
    imagefactory.isPreRelease.
  induction versions as [|v versions IH]; [reflexivity|].
  rewrite filter_cons. cbn [omap list_omap].
  destruct (ParseTolerant v) as [sv [err|]] eqn:Hp.
  - rewrite decide_True by reflexivity. cbn [omap list_omap]. rewrite Hp. exact IH.
  - case_decide as Hpre.
    + cbn [omap list_omap]. rewrite Hp. rewrite !filter_cons, IH. reflexivity.
    + rewrite IH. rewrite filter_cons_False; [reflexivity|].
      intros Heq. apply Hpre. apply bool_decide_eq_false. tauto.
Qed.

End LatestStable.

Lemma GetLatestStableVersion_fst ParseTolerant Version_String
    (c : imagefactory.Client) (versions : list string) :
  imagefactory.Versions_reply (imagefactory.factoryClient c) = (versions, None) ->
  (imagefactory.GetLatestStableVersion ParseTolerant Version_String c).1
  = match foldl imagefactory.pick None
            (imagefactory.stableVersions ParseTolerant versions) with
    | None => ("", Some (errorString "no stable versions found"))
    | Some sv => (Version_String sv, None)
    end.
Proof.
  intros Hreply. unfold imagefactory.GetLatestStableVersion.
  rewrite Eff_bind_fst.
  replace (imagefactory.Versions (imagefactory.factoryClient c)).1
    with (versions, @None error) by (symmetry; exact Hreply).
  rewrite Eff_bind_fst, rangeVersions_fst.
  destruct (foldl _ _ _); reflexivity.
Qed.

(** C6: on the list of versions the factory reports,
    [GetLatestStableVersion] fails exactly when no stable version remains;
    otherwise it returns a stable version of the list that no other stable
    version of the list exceeds; and the pre-release entries have no
    influence: the answer is that for the list without them. *)
Theorem GetLatestStableVersion_spec ParseTolerant Version_String
    (c c' : imagefactory.Client) (versions : list string) :
  imagefactory.Versions_reply (imagefactory.factoryClient c) = (versions, None) ->
  imagefactory.Versions_reply (imagefactory.factoryClient c')
  = (filter (fun v => imagefactory.isPreRelease ParseTolerant v = false) versions,
     None) ->
  let r := (imagefactory.GetLatestStableVersion ParseTolerant Version_String c).1 in
  let stable := imagefactory.stableVersions ParseTolerant versions in
  (r.2 ≠ None ↔ stable = []) ∧
  (stable ≠ [] ->
   exists m, r = (Version_String m, None) ∧ m ∈ stable
             ∧ forall x, x ∈ stable -> semver.GT x m = false) ∧
  (imagefactory.GetLatestStableVersion ParseTolerant Version_String c').1 = r.
Proof.
  intros Hc Hc'. cbv zeta.
  rewrite (GetLatestStableVersion_fst _ _ _ _ Hc).
  rewrite (GetLatestStableVersion_fst _ _ _ _ Hc').
  rewrite stableVersions_skip.
  pose proof (stableVersions_stable ParseTolerant versions) as Hstable.
  destruct (imagefactory.stableVersions ParseTolerant versions) as [|a l].
  - simpl. split; [|split]; [split; [reflexivity|discriminate] | congruence | reflexivity].
  - apply Forall_cons in Hstable as [Ha Hl].
    destruct (pick_max l Hl a Ha) as (m & Hm & Hin & Hmax).
    cbn [foldl imagefactory.pick]. rewrite Hm. simpl.
    split; [|split]; [split; [congruence|discriminate] | | reflexivity].
    intros _. exists m. auto.
Qed.

Lemma GetLatestStableVersion_spec_witness :
  (imagefactory.GetLatestStableVersion sample.ParseTolerant sample.Version_String
     (sample.client sample.reported)).1 = ("1.10.2", None).
Proof.
  pose proof (GetLatestStableVersion_spec sample.ParseTolerant
                sample.Version_String (sample.client sample.reported)
                (sample.client ["v1.9.5"; "v1.10.2"; "latest"; "v1.10.0"])
                sample.reported eq_refl eq_refl) as [_ [_ H]].
  rewrite <- H. vm_compute. reflexivity.
Defined.

(** ** The handler: composing the boot script *)

Section Boot.

Variable handler : ipxe.Handler.

Local Abbreviation client := (ipxe.imageFactoryClient handler).
Local Abbreviation opts := (ipxe.options handler).

(** The result of composing does not depend on the world it runs in. *)
Lemma boot_result_world (arch : string) (kernelArgs : list string)
    (s s' : ipxe.World) :
  (ipxe.bootViaFactoryIPXEScript handler arch kernelArgs s).1
  = (ipxe.bootViaFactoryIPXEScript handler arch kernelArgs s').1.
Proof.
  unfold_M. destruct (decide (ipxe.SchematicID opts = "")); cbn;
    client_cases; reflexivity.
Qed.

(** Composing leaves the response writer alone. *)
Lemma boot_writer (arch : string) (kernelArgs : list string) (s : ipxe.World) :
  ipxe.w (ipxe.bootViaFactoryIPXEScript handler arch kernelArgs s).2 = ipxe.w s.
Proof.
  unfold_M. destruct (decide (ipxe.SchematicID opts = "")); cbn;
    client_cases; reflexivity.
Qed.

(** The invocations composing makes on the client. *)
Lemma boot_calls (arch : string) (kernelArgs : list string) (s : ipxe.World) :
  ipxe.calls (ipxe.bootViaFactoryIPXEScript handler arch kernelArgs s).2
  = ipxe.calls s ++
    if decide (ipxe.SchematicID opts = "") then
      ipxe.CallEnsureSchematic (ipxe.Extensions opts) kernelArgs ::
      match (ipxe.EnsureSchematic client (ipxe.Extensions opts) kernelArgs).1 with
      | (_, Some _) => []
      | (schematicID, None) =>
          [ipxe.CallGetIPXEURL schematicID (ipxe.TalosVersion opts) arch]
      end
    else [ipxe.CallGetIPXEURL (ipxe.SchematicID opts) (ipxe.TalosVersion opts) arch].
Proof.
  unfold_M. destruct (decide (ipxe.SchematicID opts = "")); cbn;
    client_cases; rewrite <- ?app_assoc; reflexivity.
Qed.

(** A failed composition carries no script, status 500 and the client's
    error, wrapped; a successful one carries status 200 and the script. *)
Lemma boot_result_shape (arch : string) (kernelArgs : list string)
    (s : ipxe.World) :
  match (ipxe.bootViaFactoryIPXEScript handler arch kernelArgs s).1 with
  | (body, statusCode, Some err) =>
      body = "" ∧ statusCode = 500
      ∧ exists inner, err = Errorf_w "failed to get schematic IPXE URL: " inner
  | (body, statusCode, None) =>
      statusCode = 200 ∧ exists url, body = ipxe.ipxeScriptTemplateFormat url
  end.
Proof.
  unfold_M. destruct (decide (ipxe.SchematicID opts = "")); cbn;
    client_cases; eauto.
Qed.

Variable req : http.Request.
Hypothesis Hboot : http.PathValue req "script" = ipxe.bootScriptName.

Local Abbreviation arch :=
  (ipxe.normalizedArch (http.Values_Get (http.URL_Query req) "arch")).
Local Abbreviation kargs :=
  (ipxe.kernelArgs handler ++ ipxe.consoleKernelArgs handler arch).

(** A boot request invokes the client as composing with the normalized
    architecture and the base and console kernel arguments does. *)
Lemma ServeHTTP_boot_calls (s : ipxe.World) :
  ipxe.calls (ipxe.ServeHTTP handler req s).2
  = ipxe.calls (ipxe.bootViaFactoryIPXEScript handler arch kargs s).2.
Proof.
  boot_branch Hboot. destruct s as [[hd [st|] bd [we|]] cl ev]; unfold_M;
    destruct (decide (ipxe.SchematicID opts = "")); cbn; client_cases;
    reflexivity.
Qed.

(** A boot request answers what composing returns: the script with its
    status, or status 500 with the text of the error. *)
Lemma ServeHTTP_boot_response (s s1 : ipxe.World) :
  http.status (ipxe.w s) = None ->
  let w' := ipxe.w (ipxe.ServeHTTP handler req s).2 in
  match (ipxe.bootViaFactoryIPXEScript handler arch kargs s1).1 with
  | (_, _, Some err) =>
      http.status w' = Some 500
      ∧ http.body w' = http.body (ipxe.w s)
                       +:+ "failed to get iPXE script: " +:+ Error err
  | (body, statusCode, None) =>
      http.status w' = Some statusCode
      ∧ http.body w' = http.body (ipxe.w s) +:+ body
  end.
Proof.
  intros Hst. cbv zeta. boot_branch Hboot.
  destruct s as [[hd st bd [we|]] cl ev]; cbn in Hst; subst st; unfold_M;
    destruct (decide (ipxe.SchematicID opts = "")); cbn; client_cases;
    split; reflexivity.
Qed.

End Boot.

(** C5: composing the boot script fails exactly when resolving the
    schematic ([EnsureSchematic], asked only without a fixed schematic ID)
    or building the URL ([GetIPXEURL]) returns an error.  Then composing
    hands back no script, and the handler answers status 500 with a body
    made of the text of that error under its two prefixes and nothing else.
    When both succeed the handler answers the script for the URL with
    status 200.  In terms of what composing returns: an error gives status
    500 and the text of the error as body, no error gives the script and
    status 200. *)
Theorem ServeHTTP_boot_outcome (handler : ipxe.Handler) (req : http.Request)
    (s s1 : ipxe.World) :
  http.PathValue req "script" = ipxe.bootScriptName ->
  http.status (ipxe.w s) = None ->
  http.body (ipxe.w s) = "" ->
  let arch := ipxe.normalizedArch (http.Values_Get (http.URL_Query req) "arch") in
  let kargs := ipxe.kernelArgs handler ++ ipxe.consoleKernelArgs handler arch in
  let client := ipxe.imageFactoryClient handler in
  let opts := ipxe.options handler in
  let composed := (ipxe.bootViaFactoryIPXEScript handler arch kargs s1).1 in
  let w' := ipxe.w (ipxe.ServeHTTP handler req s).2 in
  let resolved :=
    if decide (ipxe.SchematicID opts = "") then
      (ipxe.EnsureSchematic client (ipxe.Extensions opts) kargs).1
    else (ipxe.SchematicID opts, None) in
  let failed (cause : error) :=
    composed
    = ("", 500, Some (Errorf_w "failed to get schematic IPXE URL: " cause))
    ∧ http.status w' = Some 500
    ∧ http.body w'
      = "failed to get iPXE script: " +:+ "failed to get schematic IPXE URL: "
        +:+ Error cause
    ∧ Contains (http.body w') (Error cause) = true in
  match resolved with
  | (_, Some cause) => failed cause
  | (schematicID, None) =>
      match (ipxe.GetIPXEURL client schematicID (ipxe.TalosVersion opts) arch).1 with
      | (_, Some cause) => failed cause
      | (url, None) =>
          composed = (ipxe.ipxeScriptTemplateFormat url, 200, None)
          ∧ http.status w' = Some 200
          ∧ http.body w' = ipxe.ipxeScriptTemplateFormat url
      end
  end
  ∧ match composed with
    | (script, _, Some err) =>
        script = ""
        ∧ http.status w' = Some 500
        ∧ http.body w' = "failed to get iPXE script: " +:+ Error err
        ∧ Contains (http.body w') (Error err) = true
        ∧ exists inner,
            Unwrap err = Some inner ∧ Contains (http.body w') (Error inner) = true
    | (script, statusCode, None) =>
        statusCode = 200 ∧ http.status w' = Some 200 ∧ http.body w' = script
    end.
Proof.
  intros Hboot Hst Hbody. cbv zeta.
  pose proof (ServeHTTP_boot_response handler req Hboot s s1 Hst) as Hresp.
  pose proof (boot_result_shape handler
                (ipxe.normalizedArch (http.Values_Get (http.URL_Query req) "arch"))
                (ipxe.kernelArgs handler ++ ipxe.consoleKernelArgs handler
                   (ipxe.normalizedArch
                      (http.Values_Get (http.URL_Query req) "arch"))) s1) as Hshape.
  cbv zeta in Hresp. rewrite Hbody in Hresp.
  split.
  - clear Hshape. revert Hresp.
    unfold ipxe.bootViaFactoryIPXEScript. unfold_M.
    destruct (decide (ipxe.SchematicID (ipxe.options handler) = ""));
      cbn; client_cases; intros [Hs Hb];
      change ("" +:+ ?x) with x in Hb; rewrite Hs, Hb;
      repeat split;
      do 2 apply Contains_append_r; apply Contains_refl.
  - destruct (ipxe.bootViaFactoryIPXEScript _ _ _ s1).1 as [[script code] [err|]].
    + destruct Hresp as [Hs Hb]. destruct Hshape as (Hscript & _ & inner & Hinner).
      change ("" +:+ ?x) with x in Hb.
      split; [exact Hscript|]. split; [exact Hs|]. split; [exact Hb|].
      rewrite Hb. split; [apply Contains_append_r, Contains_refl|].
      exists inner. subst err. split; [reflexivity|].
      cbn [Error Errorf_w]. do 2 apply Contains_append_r. apply Contains_refl.
    + destruct Hresp as [Hs Hb]. destruct Hshape as [Hcode _]. subst code.
      auto.
Qed.

Example ServeHTTP_boot_unreachable :
  let w' := ipxe.w (ipxe.ServeHTTP
                      (sample.withClient (sample.handler "") sample.unreachable)
                      (sample.request "boot.ipxe" "arm64") sample.world).2 in
  http.status w' = Some 500
  ∧ http.body w'
    = "failed to get iPXE script: failed to get schematic IPXE URL: failed to create schematic: connection refused".
Proof. split; reflexivity. Qed.

Lemma ServeHTTP_boot_outcome_witness :
  (let w' := ipxe.w (ipxe.ServeHTTP
                       (sample.withClient (sample.handler "") sample.unreachable)
                       (sample.request "boot.ipxe" "arm64") sample.world).2 in
   http.status w' = Some 500
   ∧ http.body w'
     = "failed to get iPXE script: failed to get schematic IPXE URL: failed to create schematic: connection refused")
  ∧ (let w' := ipxe.w (ipxe.ServeHTTP (sample.handler "")
                         (sample.request "boot.ipxe" "i386") sample.world).2 in
     http.status w' = Some 200
     ∧ http.body w'
       = "#!ipxe" +:+ ipxe.newline
         +:+ "chain --replace https://pxe.factory.talos.dev/pxe/schematic-pc/v1.2.3/metal-amd64"
         +:+ ipxe.newline).
Proof.
  split.
  - pose proof (proj1 (ServeHTTP_boot_outcome
                         (sample.withClient (sample.handler "") sample.unreachable)
                         (sample.request "boot.ipxe" "arm64")
                         sample.world sample.world
                         eq_refl eq_refl eq_refl)) as H.
    cbv zeta in H. vm_compute in H. destruct H as (_ & Hs & Hb & _).
    split; vm_compute; [exact Hs | exact Hb].
  - pose proof (proj2 (ServeHTTP_boot_outcome (sample.handler "")
                         (sample.request "boot.ipxe" "i386")
                         sample.world sample.world
                         eq_refl eq_refl eq_refl)) as H.
    cbv zeta in H. vm_compute in H. destruct H as (_ & Hs & Hb).
    split; vm_compute; [exact Hs | exact Hb].
Defined.

(** C2: with a fixed schematic ID the only invocation on the client is
    [GetIPXEURL] with that ID, so [EnsureSchematic] is not called; and for
    ID [img-1], version [v1.2.3], architecture [arm64] and secure boot off,
    the image factory client makes the handler answer status 200 and the
    two-line chain script for [<pxeBase>/pxe/img-1/v1.2.3/metal-arm64]. *)
Theorem ServeHTTP_fixed_schematic (handler : ipxe.Handler) (req : http.Request)
    (s : ipxe.World) :
  http.PathValue req "script" = ipxe.bootScriptName ->
  http.status (ipxe.w s) = None ->
  http.body (ipxe.w s) = "" ->
  ipxe.SchematicID (ipxe.options handler) ≠ "" ->
  let s' := (ipxe.ServeHTTP handler req s).2 in
  ipxe.calls s'
  = ipxe.calls s ++
    [ipxe.CallGetIPXEURL (ipxe.SchematicID (ipxe.options handler))
       (ipxe.TalosVersion (ipxe.options handler))
       (ipxe.normalizedArch (http.Values_Get (http.URL_Query req) "arch"))]
  ∧ (forall Marshal (c : imagefactory.Client),
       ipxe.imageFactoryClient handler = ipxe.ofClient Marshal c ->
       imagefactory.secureBootEnabled c = false ->
       ipxe.SchematicID (ipxe.options handler) = "img-1" ->
       ipxe.TalosVersion (ipxe.options handler) = "v1.2.3" ->
       http.Values_Get (http.URL_Query req) "arch" = "arm64" ->
       http.status (ipxe.w s') = Some 200
       ∧ http.body (ipxe.w s')
         = "#!ipxe" +:+ ipxe.newline +:+ "chain --replace "
           +:+ imagefactory.pxeBaseURL c +:+ "/pxe/img-1/v1.2.3/metal-arm64"
           +:+ ipxe.newline).
Proof.
  intros Hboot Hst Hbody Hfixed. cbv zeta. split.
  - rewrite (ServeHTTP_boot_calls handler req Hboot), boot_calls.
    rewrite decide_False by exact Hfixed. reflexivity.
  - intros Marshal c Hclient Hsb Hid Hver Harch.
    pose proof (ServeHTTP_boot_response handler req Hboot s s Hst) as Hresp.
    cbv zeta in Hresp. rewrite Hbody, Harch in Hresp.
    assert (Hres :
      (ipxe.bootViaFactoryIPXEScript handler (ipxe.normalizedArch "arm64")
         (ipxe.kernelArgs handler
          ++ ipxe.consoleKernelArgs handler (ipxe.normalizedArch "arm64")) s).1
      = (ipxe.ipxeScriptTemplateFormat
           (imagefactory.pxeBaseURL c +:+ "/pxe/img-1/v1.2.3/metal-arm64"),
         200, None)).
    { unfold ipxe.bootViaFactoryIPXEScript. rewrite Hid, Hver, Hclient.
      unfold_M. unfold imagefactory.GetIPXEURL. cbn. rewrite Hsb. reflexivity. }
    rewrite Hres in Hresp. unfold ipxe.ipxeScriptTemplateFormat in Hresp.
    rewrite append_assoc in Hresp. exact Hresp.
Qed.

Lemma ServeHTTP_fixed_schematic_witness :
  let s' := (ipxe.ServeHTTP (sample.handler "img-1")
               (sample.request "boot.ipxe" "arm64") sample.world).2 in
  ipxe.calls s' = [ipxe.CallGetIPXEURL "img-1" "v1.2.3" "arm64"]
  ∧ http.status (ipxe.w s') = Some 200.
Proof.
  pose proof (ServeHTTP_fixed_schematic (sample.handler "img-1")
                (sample.request "boot.ipxe" "arm64") sample.world
                eq_refl eq_refl eq_refl ltac:(discriminate)) as [Hcalls Hsample].
  split; [exact Hcalls|].
  apply (Hsample sample.Marshal (sample.client [])); reflexivity.
Defined.

(** ** The handler: architecture and kernel arguments *)

Lemma normalizedArch_cases (a : string) :
  ipxe.normalizedArch a = if decide (a = "arm64") then "arm64" else "amd64".
Proof.
  unfold ipxe.normalizedArch, ipxe.archArm64, ipxe.archAmd64.
  destruct (decide (a = "arm64")) as [->|Hne].
  - rewrite decide_False by (intros H; apply H; reflexivity). reflexivity.
  - rewrite decide_True by exact Hne. reflexivity.
Qed.

(** C3: the architecture a boot request goes on with is [arm64] exactly
    when the raw [arch] value of the query is [arm64], and [amd64] otherwise,
    the empty string included.  The request uses that value and no other:
    the invocations it makes on the client are [EnsureSchematic] with the
    console arguments of the normalized architecture (without a fixed
    schematic ID) and [GetIPXEURL] with the normalized architecture, and the
    script it answers is the one for the URL of the normalized
    architecture. *)
Theorem normalizedArch_spec (a : string) :
  (ipxe.normalizedArch a = "arm64" ↔ a = "arm64")
  ∧ (a ≠ "arm64" -> ipxe.normalizedArch a = "amd64")
  ∧ ipxe.normalizedArch "" = "amd64"
  ∧ forall (handler : ipxe.Handler) (req : http.Request) (s : ipxe.World),
      http.PathValue req "script" = ipxe.bootScriptName ->
      http.Values_Get (http.URL_Query req) "arch" = a ->
      let arch := if decide (a = "arm64") then "arm64" else "amd64" in
      let client := ipxe.imageFactoryClient handler in
      let opts := ipxe.options handler in
      let kernelArgs :=
        ipxe.kernelArgs handler ++ ipxe.consoleKernelArgs handler arch in
      let resolved :=
        if decide (ipxe.SchematicID opts = "") then
          (ipxe.EnsureSchematic client (ipxe.Extensions opts) kernelArgs).1
        else (ipxe.SchematicID opts, None) in
      let s' := (ipxe.ServeHTTP handler req s).2 in
      ipxe.calls s'
      = ipxe.calls s
        ++ (if decide (ipxe.SchematicID opts = "") then
              [ipxe.CallEnsureSchematic (ipxe.Extensions opts) kernelArgs]
            else [])
        ++ match resolved with
           | (_, Some _) => []
           | (schematicID, None) =>
               [ipxe.CallGetIPXEURL schematicID (ipxe.TalosVersion opts) arch]
           end
      ∧ (forall schematicID url,
           http.status (ipxe.w s) = None ->
           resolved = (schematicID, None) ->
           (ipxe.GetIPXEURL client schematicID (ipxe.TalosVersion opts) arch).1
           = (url, None) ->
           http.status (ipxe.w s') = Some 200
           ∧ http.body (ipxe.w s')
             = http.body (ipxe.w s) +:+ ipxe.ipxeScriptTemplateFormat url)
      ∧ (ipxe.calls s = [] ->
         forall c, c ∈ ipxe.calls s' ->
           match c with
           | ipxe.CallGetIPXEURL _ _ arch' => arch' = ipxe.normalizedArch a
           | ipxe.CallEnsureSchematic _ kernelArgs' =>
               kernelArgs' = ipxe.kernelArgs handler
                             ++ ipxe.consoleKernelArgs handler (ipxe.normalizedArch a)
           end).
Proof.
  split; [|split; [|split]].
  - rewrite normalizedArch_cases. case_decide; split; congruence.
  - intros Hne. rewrite normalizedArch_cases. rewrite decide_False by exact Hne.
    reflexivity.
  - reflexivity.
  - intros handler req s Hboot Harch. cbv zeta.
    assert (Hnorm : (if decide (a = "arm64") then "arm64" else "amd64")
                    = ipxe.normalizedArch a).
    { rewrite normalizedArch_cases. case_decide; congruence. }
    rewrite Hnorm. clear Hnorm.
    assert (Hcalls : ipxe.calls (ipxe.ServeHTTP handler req s).2
      = ipxe.calls s
        ++ (if decide (ipxe.SchematicID (ipxe.options handler) = "") then
              [ipxe.CallEnsureSchematic (ipxe.Extensions (ipxe.options handler))
                 (ipxe.kernelArgs handler
                  ++ ipxe.consoleKernelArgs handler (ipxe.normalizedArch a))]
            else [])
        ++ match
             (if decide (ipxe.SchematicID (ipxe.options handler) = "") then
                (ipxe.EnsureSchematic (ipxe.imageFactoryClient handler)
                   (ipxe.Extensions (ipxe.options handler))
                   (ipxe.kernelArgs handler
                    ++ ipxe.consoleKernelArgs handler (ipxe.normalizedArch a))).1
              else (ipxe.SchematicID (ipxe.options handler), None))
           with
           | (_, Some _) => []
           | (schematicID, None) =>
               [ipxe.CallGetIPXEURL schematicID
                  (ipxe.TalosVersion (ipxe.options handler))
                  (ipxe.normalizedArch a)]
           end).
    { rewrite (ServeHTTP_boot_calls handler req Hboot), boot_calls, Harch.
      destruct (decide (ipxe.SchematicID (ipxe.options handler) = ""));
        reflexivity. }
    split; [exact Hcalls|]. split.
    + intros schematicID url Hst Hres Hurl.
      pose proof (ServeHTTP_boot_response handler req Hboot s s Hst) as Hresp.
      cbv zeta in Hresp. rewrite Harch in Hresp. revert Hresp.
      unfold ipxe.bootViaFactoryIPXEScript. unfold_M.
      destruct (decide (ipxe.SchematicID (ipxe.options handler) = ""));
        cbn; [rewrite Hres | injection Hres as <-]; cbn;
        rewrite Hurl; cbn; intros [Hs Hb]; split; assumption.
    + intros Hnil c. rewrite Hcalls, Hnil. cbn [app].
      destruct (decide (ipxe.SchematicID (ipxe.options handler) = "")).
      * intros Hin. apply elem_of_cons in Hin as [->|Hin]; [reflexivity|].
        destruct (ipxe.EnsureSchematic _ _ _).1 as [id [err|]].
        -- apply elem_of_nil in Hin. contradiction.
        -- apply list_elem_of_singleton in Hin. subst c. reflexivity.
      * intros Hin. apply list_elem_of_singleton in Hin. subst c. reflexivity.
Qed.

Lemma normalizedArch_spec_witness :
  ipxe.normalizedArch "i386" = "amd64"
  ∧ ipxe.calls (ipxe.ServeHTTP (sample.handler "")
                  (sample.request "boot.ipxe" "i386") sample.world).2
    = [ipxe.CallEnsureSchematic []
         ["talos.platform=metal"; "console=tty0"; "console=ttyS0"];
       ipxe.CallGetIPXEURL "schematic-pc" "v1.2.3" "amd64"]
  ∧ http.body (ipxe.w (ipxe.ServeHTTP (sample.handler "")
                         (sample.request "boot.ipxe" "i386") sample.world).2)
    = ipxe.ipxeScriptTemplateFormat
        "https://pxe.factory.talos.dev/pxe/schematic-pc/v1.2.3/metal-amd64".
Proof.
  destruct (normalizedArch_spec "i386") as (_ & Hother & _ & Hserve).
  split; [apply Hother; discriminate|].
  destruct (Hserve (sample.handler "") (sample.request "boot.ipxe" "i386")
              sample.world eq_refl eq_refl) as (Hcalls & Hanswer & _).
  split; [exact Hcalls|].
  exact (proj2 (Hanswer "schematic-pc"
                  "https://pxe.factory.talos.dev/pxe/schematic-pc/v1.2.3/metal-amd64"
                  eq_refl eq_refl eq_refl)).
Defined.

(** C4: the console kernel arguments are [console=tty0 console=ttyAMA0]
    for arm64 and [console=tty0 console=ttyS0] otherwise; a boot request
    composes the script with the handler's base kernel arguments followed by
    them: it invokes the client and answers as composing with that sequence
    does. *)
Theorem consoleKernelArgs_spec (handler : ipxe.Handler) (arch : string) :
  (arch = "arm64" ->
   ipxe.consoleKernelArgs handler arch = ["console=tty0"; "console=ttyAMA0"])
  ∧ (arch ≠ "arm64" ->
     ipxe.consoleKernelArgs handler arch = ["console=tty0"; "console=ttyS0"])
  ∧ forall (req : http.Request) (s : ipxe.World),
      http.PathValue req "script" = ipxe.bootScriptName ->
      ipxe.normalizedArch (http.Values_Get (http.URL_Query req) "arch") = arch ->
      http.status (ipxe.w s) = None ->
      let kernelArgs :=
        ipxe.kernelArgs handler
        ++ (if decide (arch = "arm64") then ["console=tty0"; "console=ttyAMA0"]
            else ["console=tty0"; "console=ttyS0"]) in
      let composed := ipxe.bootViaFactoryIPXEScript handler arch kernelArgs s in
      let s' := (ipxe.ServeHTTP handler req s).2 in
      ipxe.calls s' = ipxe.calls composed.2
      ∧ match composed.1 with
        | (_, _, Some err) =>
            http.status (ipxe.w s') = Some 500
            ∧ http.body (ipxe.w s')
              = http.body (ipxe.w s) +:+ "failed to get iPXE script: "
                +:+ Error err
        | (body, statusCode, None) =>
            http.status (ipxe.w s') = Some statusCode
            ∧ http.body (ipxe.w s') = http.body (ipxe.w s) +:+ body
        end.
Proof.
  split; [|split].
  - intros ->. reflexivity.
  - intros Hne. unfold ipxe.consoleKernelArgs, ipxe.archArm64.
    rewrite decide_False by exact Hne. reflexivity.
  - intros req s Hboot Harch Hst. cbv zeta.
    change (if decide (arch = "arm64") then ["console=tty0"; "console=ttyAMA0"]
            else ["console=tty0"; "console=ttyS0"])
      with (ipxe.consoleKernelArgs handler arch).
    subst arch. split.
    + apply ServeHTTP_boot_calls. exact Hboot.
    + apply (ServeHTTP_boot_response handler req Hboot s s Hst).
Qed.

Lemma consoleKernelArgs_spec_witness :
  ipxe.consoleKernelArgs (sample.handler "") "arm64"
  = ["console=tty0"; "console=ttyAMA0"]
  ∧ ipxe.consoleKernelArgs (sample.handler "") "amd64"
    = ["console=tty0"; "console=ttyS0"]
  ∧ ipxe.calls (ipxe.ServeHTTP (sample.handler "")
                  (sample.request "boot.ipxe" "arm64") sample.world).2
    = [ipxe.CallEnsureSchematic []
         ["talos.platform=metal"; "console=tty0"; "console=ttyAMA0"];
       ipxe.CallGetIPXEURL "schematic-arm" "v1.2.3" "arm64"].
Proof.
  destruct (consoleKernelArgs_spec (sample.handler "") "arm64") as (Harm & _ & Hreq).
  destruct (consoleKernelArgs_spec (sample.handler "") "amd64") as (_ & Hpc & _).
  split; [apply Harm; reflexivity|]. split; [apply Hpc; discriminate|].
  destruct (Hreq (sample.request "boot.ipxe" "arm64") sample.world
              eq_refl eq_refl eq_refl) as [Hcalls _].
  rewrite Hcalls. reflexivity.
Defined.

(** C10: without a fixed schematic ID a boot request first calls
    [EnsureSchematic] with the configured extensions and with the base kernel
    arguments followed by the console arguments of the normalized
    architecture; the sequences for arm64 and amd64 differ, and there is a
    client for which the two resolve to different schematic IDs. *)
Theorem EnsureSchematic_kernelArgs (handler : ipxe.Handler) :
  ipxe.SchematicID (ipxe.options handler) = "" ->
  (forall (req : http.Request) (s : ipxe.World),
     http.PathValue req "script" = ipxe.bootScriptName ->
     ipxe.calls s = [] ->
     exists rest,
       ipxe.calls (ipxe.ServeHTTP handler req s).2
       = ipxe.CallEnsureSchematic (ipxe.Extensions (ipxe.options handler))
           (ipxe.kernelArgs handler
            ++ ipxe.consoleKernelArgs handler
                 (ipxe.normalizedArch
                    (http.Values_Get (http.URL_Query req) "arch")))
         :: rest)
  ∧ ipxe.kernelArgs handler ++ ipxe.consoleKernelArgs handler "arm64"
    ≠ ipxe.kernelArgs handler ++ ipxe.consoleKernelArgs handler "amd64"
  ∧ exists client,
      forall (reqA reqB : http.Request) (s : ipxe.World),
        http.PathValue reqA "script" = ipxe.bootScriptName ->
        http.PathValue reqB "script" = ipxe.bootScriptName ->
        ipxe.normalizedArch (http.Values_Get (http.URL_Query reqA) "arch")
        = "arm64" ->
        ipxe.normalizedArch (http.Values_Get (http.URL_Query reqB) "arch")
        = "amd64" ->
        ipxe.calls s = [] ->
        exists idA idB version,
          last (ipxe.calls
                  (ipxe.ServeHTTP (sample.withClient handler client) reqA s).2)
          = Some (ipxe.CallGetIPXEURL idA version "arm64")
          ∧ last (ipxe.calls
                    (ipxe.ServeHTTP (sample.withClient handler client) reqB s).2)
            = Some (ipxe.CallGetIPXEURL idB version "amd64")
          ∧ idA ≠ idB.
Proof.
  intros Hid. split; [|split].
  - intros req s Hboot Hcalls.
    rewrite (ServeHTTP_boot_calls handler req Hboot), boot_calls, Hcalls.
    rewrite decide_True by exact Hid. cbn [app]. eauto.
  - intros Heq. apply app_inv_head in Heq. discriminate Heq.
  - exists sample.byConsole. intros reqA reqB s HbootA HbootB HarchA HarchB Hcalls.
    exists "schematic-arm", "schematic-pc", (ipxe.TalosVersion (ipxe.options handler)).
    rewrite (ServeHTTP_boot_calls _ reqA HbootA), (ServeHTTP_boot_calls _ reqB HbootB).
    rewrite !boot_calls, Hcalls, HarchA, HarchB.
    cbn [sample.withClient ipxe.options ipxe.kernelArgs ipxe.imageFactoryClient].
    rewrite !decide_True by exact Hid.
    cbn [app sample.byConsole ipxe.EnsureSchematic mret Eff_ret fst].
    change (ipxe.consoleKernelArgs _ "arm64")
      with (["console=tty0"] ++ ["console=ttyAMA0"]).
    change (ipxe.consoleKernelArgs _ "amd64")
      with (["console=tty0"] ++ ["console=ttyS0"]).
    rewrite !app_assoc, !last_snoc.
    rewrite decide_True by reflexivity.
    rewrite decide_False by discriminate.
    split; [reflexivity|]. split; [reflexivity|]. discriminate.
Qed.

Lemma EnsureSchematic_kernelArgs_witness :
  (exists rest,
     ipxe.calls (ipxe.ServeHTTP (sample.handler "")
                   (sample.request "boot.ipxe" "arm64") sample.world).2
     = ipxe.CallEnsureSchematic []
         ["talos.platform=metal"; "console=tty0"; "console=ttyAMA0"] :: rest)
  ∧ ["talos.platform=metal"; "console=tty0"; "console=ttyAMA0"]
    ≠ ["talos.platform=metal"; "console=tty0"; "console=ttyS0"].
Proof.
  destruct (EnsureSchematic_kernelArgs (sample.handler "") eq_refl)
    as (Hcall & Hne & _).
  split; [|exact Hne].
  exact (Hcall (sample.request "boot.ipxe" "arm64") sample.world eq_refl eq_refl).
Defined.

(** ** The handler: init script and unknown scripts *)

(** C8: a request for [init.ipxe], whatever its query, is answered with
    status 200, content type [text/plain] and the handler's init script as
    body, without any invocation on the client; two such requests get the
    same bytes. *)
Theorem ServeHTTP_init (handler : ipxe.Handler) (req : http.Request)
    (s : ipxe.World) (writeError : option error) :
  http.PathValue req "script" = ipxe.initScriptName ->
  ipxe.w s = http.newResponseWriter writeError ->
  let s' := (ipxe.ServeHTTP handler req s).2 in
  http.status (ipxe.w s') = Some 200
  ∧ http.header (ipxe.w s') !! "Content-Type" = Some ["text/plain"]
  ∧ http.body (ipxe.w s') = ipxe.initScript handler
  ∧ ipxe.calls s' = ipxe.calls s
  ∧ forall (req2 : http.Request) (s2 : ipxe.World) (writeError2 : option error),
      http.PathValue req2 "script" = ipxe.initScriptName ->
      ipxe.w s2 = http.newResponseWriter writeError2 ->
      http.body (ipxe.w (ipxe.ServeHTTP handler req2 s2).2)
      = http.body (ipxe.w s').
Proof.
  intros Hinit Hw. cbv zeta.
  assert (Hrun : forall r t e,
    http.PathValue r "script" = ipxe.initScriptName ->
    ipxe.w t = http.newResponseWriter e ->
    ipxe.w (ipxe.ServeHTTP handler r t).2
    = {| http.header := {[ "Content-Type" := ["text/plain"] ]};
         http.status := Some 200;
         http.body := ipxe.initScript handler;
         http.writeError := e |}
    ∧ ipxe.calls (ipxe.ServeHTTP handler r t).2 = ipxe.calls t).
  { intros r t e Hr Ht. unfold ipxe.ServeHTTP. rewrite Hr.
    rewrite decide_True by reflexivity.
    destruct t as [wt ct et]. cbn in Ht. subst wt.
    unfold_M. destruct e; split; reflexivity. }
  destruct (Hrun req s writeError Hinit Hw) as [Hw' Hcalls].
  rewrite Hw', Hcalls. cbn.
  split; [reflexivity|]. split; [apply lookup_singleton_eq|].
  split; [reflexivity|]. split; [reflexivity|].
  intros req2 s2 writeError2 Hinit2 Hw2.
  destruct (Hrun req2 s2 writeError2 Hinit2 Hw2) as [Hw2' _].
  rewrite Hw2'. reflexivity.
Qed.

Lemma ServeHTTP_init_witness :
  http.body (ipxe.w (ipxe.ServeHTTP (sample.handler "")
                       (sample.request "init.ipxe" "arm64") sample.world).2)
  = "#!ipxe" +:+ ipxe.newline +:+ "dhcp" +:+ ipxe.newline.
Proof.
  exact (proj1 (proj2 (proj2 (ServeHTTP_init (sample.handler "")
                                (sample.request "init.ipxe" "arm64")
                                sample.world None eq_refl eq_refl)))).
Defined.

(** C9: a request for a script that is neither [init.ipxe] nor
    [boot.ipxe] is answered with status 404 and an empty body; the client is
    not invoked and the only event is the log entry naming the script. *)
Theorem ServeHTTP_unknown (handler : ipxe.Handler) (req : http.Request)
    (s : ipxe.World) (writeError : option error) :
  http.PathValue req "script" ≠ ipxe.initScriptName ->
  http.PathValue req "script" ≠ ipxe.bootScriptName ->
  ipxe.w s = http.newResponseWriter writeError ->
  let s' := (ipxe.ServeHTTP handler req s).2 in
  http.status (ipxe.w s') = Some 404
  ∧ http.body (ipxe.w s') = ""
  ∧ ipxe.calls s' = ipxe.calls s
  ∧ ipxe.events s'
    = ipxe.events s
      ++ [EvLog ErrorLevel "invalid iPXE script"
            (context (ipxe.logger handler)
             ++ [zap_String "script" (http.PathValue req "script")])]
  ∧ forall client,
      ipxe.ServeHTTP (sample.withClient handler client) req s
      = ipxe.ServeHTTP handler req s.
Proof.
  intros Hinit Hboot Hw. cbv zeta. unfold ipxe.ServeHTTP.
  destruct (decide (http.PathValue req "script" = ipxe.initScriptName));
    [contradiction|].
  destruct (decide (http.PathValue req "script" = ipxe.bootScriptName));
    [contradiction|].
  destruct s as [ws cs es]. cbn in Hw. subst ws. unfold_M.
  repeat split; reflexivity.
Qed.

Lemma ServeHTTP_unknown_witness :
  let s' := (ipxe.ServeHTTP (sample.handler "")
               (sample.request "foo.ipxe" "arm64") sample.world).2 in
  http.status (ipxe.w s') = Some 404 ∧ http.body (ipxe.w s') = "".
Proof.
  destruct (ServeHTTP_unknown (sample.handler "")
              (sample.request "foo.ipxe" "arm64") sample.world None
              ltac:(discriminate) ltac:(discriminate) eq_refl)
    as (Hst & Hbody & _).
  split; [exact Hst | exact Hbody].
Defined.

(** ** Constructing the handler *)

(** C7: with a schematic ID and extensions or extra kernel arguments,
    [NewHandler] returns an error and no handler, before anything is built,
    patched or logged; with an empty schematic ID, or a schematic ID alone,
    the check passes: the handler is returned as soon as building the init
    script and patching the binaries succeed. *)
Theorem NewHandler_schematic_check
    (Fields : string -> list string)
    (buildInitScript : string -> Z -> string * option error)
    (patchBinaries : string -> Logger -> Eff (option error))
    (configServerEnabled : bool) (client : ipxe.ImageFactoryClient)
    (options : ipxe.HandlerOptions) (logger : Logger) :
  let new := ipxe.NewHandler Fields buildInitScript patchBinaries
               configServerEnabled client options logger in
  (ipxe.SchematicID options ≠ "" ->
   ipxe.Extensions options ≠ [] ∨ ipxe.ExtraKernelArgs options ≠ "" ->
   new = ((None, Some (errorString
             "schematicID cannot be used with extensions or extraKernelArgs")),
          []))
  ∧ (ipxe.SchematicID options = ""
     ∨ ipxe.Extensions options = [] ∧ ipxe.ExtraKernelArgs options = "" ->
     let built := buildInitScript (ipxe.APIAdvertiseAddress options)
                    (ipxe.APIPort options) in
     built.2 = None ->
     (patchBinaries built.1 logger).1 = None ->
     exists handler,
       new.1 = (Some handler, None)
       ∧ ipxe.options handler = options
       ∧ ipxe.initScript handler = built.1
       ∧ ipxe.imageFactoryClient handler = client).
Proof.
  cbv zeta. unfold ipxe.NewHandler. split.
  - intros Hid Hcustom. rewrite decide_True by exact Hid.
    rewrite decide_True; [reflexivity|].
    destruct Hcustom as [Hext|Hargs].
    + left. destruct (ipxe.Extensions options); [contradiction|]. simpl. lia.
    + right. destruct (ipxe.ExtraKernelArgs options); [contradiction|]. simpl. lia.
  - intros Hok Hbuilt Hpatched.
    destruct (buildInitScript _ _) as [initScript err]. cbn in Hbuilt, Hpatched.
    subst err.
    assert (Hcheck : ipxe.SchematicID options ≠ "" ->
                     ¬ ((0 < length (ipxe.Extensions options))%nat
                        ∨ (0 < String.length (ipxe.ExtraKernelArgs options))%nat)).
    { intros Hid. destruct Hok as [Hempty|[Hext Hargs]]; [contradiction|].
      rewrite Hext, Hargs. simpl. lia. }
    destruct (decide (ipxe.SchematicID options ≠ "")) as [Hid|Hid];
      [rewrite decide_False by auto|];
      rewrite !Eff_bind_fst, Hpatched, !Eff_bind_fst;
      destruct configServerEnabled; rewrite ?Eff_bind_fst;
      eexists; repeat split.
Qed.

Lemma NewHandler_schematic_check_witness :
  ipxe.NewHandler sample.Fields sample.buildInitScript sample.patchBinaries
    true (ipxe.ofClient sample.Marshal (sample.client []))
    {| ipxe.APIAdvertiseAddress := "10.0.0.1";
       ipxe.TalosVersion := "v1.2.3";
       ipxe.ExtraKernelArgs := "";
       ipxe.SchematicID := "img-1";
       ipxe.Extensions := ["siderolabs/hello-world-service"];
       ipxe.APIPort := 50084 |} sample.noLogger
  = ((None, Some (errorString
        "schematicID cannot be used with extensions or extraKernelArgs")), [])
  ∧ exists handler,
      (ipxe.NewHandler sample.Fields sample.buildInitScript sample.patchBinaries
         true (ipxe.ofClient sample.Marshal (sample.client []))
         (sample.options "img-1") sample.noLogger).1 = (Some handler, None)
      ∧ ipxe.options handler = sample.options "img-1".
Proof.
  split.
  - apply (proj1 (NewHandler_schematic_check _ _ _ _ _ _ _)).
    + discriminate.
    + left. discriminate.
  - destruct (proj2 (NewHandler_schematic_check sample.Fields
                       sample.buildInitScript sample.patchBinaries true
                       (ipxe.ofClient sample.Marshal (sample.client []))
                       (sample.options "img-1") sample.noLogger)
                (or_intror (conj eq_refl eq_refl)) eq_refl eq_refl)
      as (handler & Hnew & Hopts & _).
    exists handler. split; [exact Hnew | exact Hopts].
Defined.

(** * Further properties *)

(** ** The image factory client *)

Lemma Eff_bind_snd {A B} (m : Eff A) (k : A -> Eff B) :
  (m ≫= k).2 = m.2 ++ (k m.1).2.
Proof.
  unfold mbind, Eff_bind. destruct m as [a t]. simpl.
  destruct (k a) as [b t']. reflexivity.
Qed.

(** X1: [EnsureSchematic] of the image factory client hands the factory one
    schematic holding the given extensions and kernel arguments unchanged.
    When marshalling fails it returns that error wrapped and never contacts
    the factory; when the factory fails it returns that error wrapped;
    otherwise it returns the ID the factory answered. *)
Theorem Client_EnsureSchematic_outcome
    (Marshal : schematic.Schematic -> string * option error)
    (c : imagefactory.Client) (extensions extraKernelArgs : list string) :
  let sch := {| schematic.ExtraKernelArgs := extraKernelArgs;
                schematic.OfficialExtensions := extensions |} in
  let r := imagefactory.EnsureSchematic Marshal c extensions extraKernelArgs in
  match (Marshal sch).2 with
  | Some err =>
      r.1 = ("", Some (Errorf_w "failed to marshal schematic: " err))
      ∧ filter (fun e => isNetworkCall e = true) r.2 = []
  | None =>
      filter (fun e => isNetworkCall e = true) r.2 = [EvSchematicCreate sch]
      ∧ match imagefactory.SchematicCreate_reply
                (imagefactory.factoryClient c) sch with
        | (_, Some err) =>
            r.1 = ("", Some (Errorf_w "failed to create schematic: " err))
        | (schematicID, None) => r.1 = (schematicID, None)
        end
  end.
Proof.
  cbv zeta. unfold imagefactory.EnsureSchematic, imagefactory.SchematicCreate.
  destruct (Marshal _) as [marshaled [err|]]; cbn.
  - split; reflexivity.
  - destruct (imagefactory.SchematicCreate_reply _ _) as [schematicID [err|]];
      cbn; split; reflexivity.
Qed.

Example Client_EnsureSchematic_broken :
  imagefactory.EnsureSchematic sample.brokenMarshal (sample.client [])
    ["siderolabs/iscsi-tools"] ["console=tty0"]
  = (("", Some (Errorf_w "failed to marshal schematic: "
                  (errorString "yaml: unsupported value"))),
     [EvLog DebugLevel "ensure schematic"
        [zap_Strings "extensions" ["siderolabs/iscsi-tools"];
         zap_Strings "extra_kernel_args" ["console=tty0"]]]).
Proof. reflexivity. Qed.

Section LatestStableEvents.

Variable ParseTolerant : string -> semver.Version * option error.

Lemma rangeVersions_snd (c : imagefactory.Client) (versions : list string) :
  forall latestStable,
    (imagefactory.rangeVersions ParseTolerant c latestStable versions).2
    = imagefactory.parseWarnings ParseTolerant c versions.
Proof.
  induction versions as [|v versions IH]; intros latestStable; [reflexivity|].
  cbn [imagefactory.rangeVersions]. rewrite Eff_bind_snd, IH.
  unfold imagefactory.parseWarnings, imagefactory.stableStep.
  cbn [omap list_omap].
  destruct (ParseTolerant v) as [sv [err|]]; [reflexivity|].
  destruct (decide (0 < length (semver.Pre sv))%nat); [reflexivity|].
  destruct latestStable as [l|]; [|reflexivity].
  destruct (semver.GT sv l); reflexivity.
Qed.

(** The first greatest element: everything before it is lower, nothing
    after it is greater. *)
Lemma pick_first (l : list semver.Version) :
  Forall (fun sv => semver.Pre sv = []) l ->
  forall a, semver.Pre a = [] ->
    exists m l1 l2,
      foldl imagefactory.pick (Some a) l = Some m
      ∧ a :: l = l1 ++ m :: l2
      ∧ (forall x, x ∈ l1 -> semver.GT m x = true)
      ∧ (forall x, x ∈ l2 -> semver.GT x m = false).
Proof.
  induction 1 as [|x l Hx Hl IH]; intros a Ha.
  - exists a, [], []. split; [reflexivity|]. split; [reflexivity|].
    split; intros y Hy; apply elem_of_nil in Hy; contradiction.
  - simpl. destruct (semver.GT x a) eqn:Hgt.
    + destruct (IH x Hx) as (m & l1 & l2 & Hm & Hsplit & Hbefore & Hafter).
      exists m, (a :: l1), l2. split; [exact Hm|].
      split; [rewrite Hsplit; reflexivity|]. split; [|exact Hafter].
      intros y Hy. apply elem_of_cons in Hy as [->|Hy]; [|auto].
      destruct l1 as [|x' l1].
      * injection Hsplit as <- _. exact Hgt.
      * injection Hsplit as <- Hl'.
        assert (Hpm : semver.Pre m = []).
        { rewrite Forall_forall in Hl. apply Hl. rewrite Hl'.
          apply elem_of_app. right. left. }
        specialize (Hbefore x (ltac:(left))).
        rewrite GT_stable in * by assumption.
        unfold imagefactory.below in *. lia.
    + destruct (IH a Ha) as (m & l1 & l2 & Hm & Hsplit & Hbefore & Hafter).
      destruct l1 as [|a' l1].
      * injection Hsplit as -> ->. exists m, [], (x :: l2).
        split; [exact Hm|]. split; [reflexivity|].
        split; [intros y Hy; apply elem_of_nil in Hy; contradiction|].
        intros y Hy. apply elem_of_cons in Hy as [->|Hy]; [exact Hgt|auto].
      * injection Hsplit as <- Hl'. exists m, (a :: x :: l1), l2.
        split; [exact Hm|]. split; [rewrite Hl'; reflexivity|].
        split; [|exact Hafter].
        assert (Hpm : semver.Pre m = []).
        { rewrite Forall_forall in Hl. apply Hl. rewrite Hl'.
          apply elem_of_app. right. left. }
        pose proof (Hbefore a (ltac:(left))) as Ham.
        intros y Hy. apply elem_of_cons in Hy as [->|Hy]; [exact Ham|].
        apply elem_of_cons in Hy as [->|Hy]; [|apply Hbefore; right; exact Hy].
        apply not_true_iff_false in Hgt.
        rewrite GT_stable in * by assumption.
        unfold imagefactory.below in *. lia.
Qed.

End LatestStableEvents.

(** X2: [GetLatestStableVersion] asks the factory once.  When that call
    fails it returns the factory's error as it is and logs nothing;
    otherwise it logs one warning for each reported version that does not
    parse, in the order of the list, and nothing for pre-releases. *)
Theorem GetLatestStableVersion_events
    (ParseTolerant : string -> semver.Version * option error)
    (Version_String : semver.Version -> string) (c : imagefactory.Client) :
  let r := imagefactory.GetLatestStableVersion ParseTolerant Version_String c in
  (forall versions err,
     imagefactory.Versions_reply (imagefactory.factoryClient c)
     = (versions, Some err) ->
     r = (("", Some err), [EvVersions]))
  ∧ (forall versions,
       imagefactory.Versions_reply (imagefactory.factoryClient c)
       = (versions, None) ->
       r.2 = EvVersions :: imagefactory.parseWarnings ParseTolerant c versions).
Proof.
  cbv zeta. unfold imagefactory.GetLatestStableVersion, imagefactory.Versions.
  split.
  - intros versions err Hreply. cbn. rewrite Hreply. reflexivity.
  - intros versions Hreply. rewrite Eff_bind_snd. cbn [mbind Eff_bind emit mret Eff_ret fst snd app].
    rewrite Hreply. rewrite Eff_bind_snd, rangeVersions_snd.
    destruct (imagefactory.rangeVersions _ _ _ _).1; cbn; rewrite app_nil_r;
      reflexivity.
Qed.

Lemma GetLatestStableVersion_events_witness :
  (imagefactory.GetLatestStableVersion sample.ParseTolerant sample.Version_String
     (sample.client sample.reported)).2
  = [EvVersions;
     EvLog WarnLevel "failed to parse version"
       [zap_String "version" "latest";
        zap_Error (errorString "No Major.Minor.Patch elements found")]].
Proof.
  exact (proj2 (GetLatestStableVersion_events sample.ParseTolerant
                  sample.Version_String (sample.client sample.reported))
           sample.reported eq_refl).
Defined.

(** X3: among stable versions of equal precedence
    [GetLatestStableVersion] keeps the one reported first: the version it
    returns exceeds every stable version reported before it and is exceeded
    by none reported after it. *)
Theorem GetLatestStableVersion_first_maximum
    (ParseTolerant : string -> semver.Version * option error)
    (Version_String : semver.Version -> string) (c : imagefactory.Client)
    (versions : list string) (latest : string) :
  imagefactory.Versions_reply (imagefactory.factoryClient c) = (versions, None) ->
  (imagefactory.GetLatestStableVersion ParseTolerant Version_String c).1
  = (latest, None) ->
  exists m before after,
    latest = Version_String m
    ∧ imagefactory.stableVersions ParseTolerant versions = before ++ m :: after
    ∧ (forall x, x ∈ before -> semver.GT m x = true)
    ∧ (forall x, x ∈ after -> semver.GT x m = false).
Proof.
  intros Hreply Hlatest.
  rewrite (GetLatestStableVersion_fst _ _ _ _ Hreply) in Hlatest.
  pose proof (stableVersions_stable ParseTolerant versions) as Hstable.
  destruct (imagefactory.stableVersions ParseTolerant versions) as [|a l].
  - discriminate Hlatest.
  - apply Forall_cons in Hstable as [Ha Hl].
    destruct (pick_first l Hl a Ha) as (m & l1 & l2 & Hm & Hsplit & Hbefore & Hafter).
    cbn [foldl imagefactory.pick] in Hlatest. rewrite Hm in Hlatest.
    injection Hlatest as <-. exists m, l1, l2. auto.
Qed.

Lemma GetLatestStableVersion_first_maximum_witness :
  (imagefactory.GetLatestStableVersion sample.ParseBuilds
     sample.Version_String_build
     (sample.client ["v1.9.5"; "1.10.2+b"; "v1.10.0"; "1.10.2+a"])).1
  = ("1.10.2+b", None)
  ∧ exists m before after,
      "1.10.2+b" = sample.Version_String_build m
      ∧ imagefactory.stableVersions sample.ParseBuilds
          ["v1.9.5"; "1.10.2+b"; "v1.10.0"; "1.10.2+a"]
        = before ++ m :: after.
Proof.
  split; [reflexivity|].
  destruct (GetLatestStableVersion_first_maximum sample.ParseBuilds
              sample.Version_String_build
              (sample.client ["v1.9.5"; "1.10.2+b"; "v1.10.0"; "1.10.2+a"])
              ["v1.9.5"; "1.10.2+b"; "v1.10.0"; "1.10.2+a"] "1.10.2+b"
              eq_refl eq_refl) as (m & l1 & l2 & Hm & Hsplit & _).
  exists m, l1, l2. split; [exact Hm | exact Hsplit].
Defined.

(** X4: [NewClient] fails exactly when [client.New] rejects the base URL,
    and then returns no client; a client it returns builds its PXE URLs from
    [pxeBaseURL] and the secure-boot flag it was given, whatever the base
    URL. *)
Theorem NewClient_spec
    (client_New : string -> imagefactory.FactoryClient * option error)
    (baseURL pxeBaseURL : string) (secureBootEnabled : bool) (logger : Logger) :
  let new := imagefactory.NewClient client_New baseURL pxeBaseURL
               secureBootEnabled logger in
  (new.2 ≠ None ↔ (client_New baseURL).2 ≠ None)
  ∧ (new.2 ≠ None ↔ new.1 = None)
  ∧ new.2 = (client_New baseURL).2
  ∧ forall c, new.1 = Some c ->
      forall schematicID talosVersion arch,
        schematicID ≠ "" -> talosVersion ≠ "" -> arch ≠ "" ->
        let url := pxeBaseURL +:+ "/pxe/" +:+ schematicID +:+ "/"
                     +:+ talosVersion +:+ "/metal-" +:+ arch in
        imagefactory.GetIPXEURL c schematicID talosVersion arch
        = (if secureBootEnabled then url +:+ "-secureboot" else url, None).
Proof.
  cbv zeta. unfold imagefactory.NewClient.
  destruct (client_New baseURL) as [fc [err|]]; cbn.
  - repeat split; try congruence; discriminate.
  - split; [tauto|]. split; [split; [congruence|discriminate]|].
    split; [reflexivity|].
    intros c [= <-] schematicID talosVersion arch Hid Hver Harch.
    unfold imagefactory.GetIPXEURL. cbn.
    rewrite !decide_False by assumption. reflexivity.
Qed.

Lemma NewClient_spec_witness :
  exists c,
    (imagefactory.NewClient sample.client_New "https://factory.talos.dev"
       "https://pxe.factory.talos.dev" true sample.noLogger).1 = Some c
    ∧ imagefactory.GetIPXEURL c "img-1" "v1.2.3" "amd64"
      = ("https://pxe.factory.talos.dev/pxe/img-1/v1.2.3/metal-amd64-secureboot",
         None).
Proof.
  eexists. split; [reflexivity|].
  apply (proj2 (proj2 (proj2 (NewClient_spec sample.client_New
                                "https://factory.talos.dev"
                                "https://pxe.factory.talos.dev" true
                                sample.noLogger))));
    [reflexivity | discriminate | discriminate | discriminate].
Defined.

(** ** The handler with the image factory client *)

(** X5: without a fixed schematic ID, a boot request served through the
    image factory client builds one schematic: the configured extensions and
    the base kernel arguments followed by the console arguments.  When the
    schematic cannot be marshalled the factory is not contacted and the
    answer is status 500; otherwise the schematic is sent to the factory,
    once.  A factory error, an empty ID answered without error and an empty
    Talos version each give status 500 with the text of the failure; in the
    remaining case the answer is status 200 with the chain script for the
    URL of the ID the factory answered. *)
Theorem ServeHTTP_factory_resolution (handler : ipxe.Handler)
    (req : http.Request) (s : ipxe.World)
    (Marshal : schematic.Schematic -> string * option error)
    (c : imagefactory.Client) :
  http.PathValue req "script" = ipxe.bootScriptName ->
  http.status (ipxe.w s) = None ->
  http.body (ipxe.w s) = "" ->
  ipxe.imageFactoryClient handler = ipxe.ofClient Marshal c ->
  ipxe.SchematicID (ipxe.options handler) = "" ->
  let arch := ipxe.normalizedArch (http.Values_Get (http.URL_Query req) "arch") in
  let sch :=
    {| schematic.ExtraKernelArgs :=
         ipxe.kernelArgs handler ++ ipxe.consoleKernelArgs handler arch;
       schematic.OfficialExtensions := ipxe.Extensions (ipxe.options handler) |} in
  let s' := (ipxe.ServeHTTP handler req s).2 in
  let failed (text : string) :=
    http.status (ipxe.w s') = Some 500
    ∧ http.body (ipxe.w s')
      = "failed to get iPXE script: failed to get schematic IPXE URL: " +:+ text in
  match (Marshal sch).2 with
  | Some err =>
      filter (fun e => isNetworkCall e = true) (ipxe.events s')
      = filter (fun e => isNetworkCall e = true) (ipxe.events s)
      ∧ failed ("failed to marshal schematic: " +:+ Error err)
  | None =>
      filter (fun e => isNetworkCall e = true) (ipxe.events s')
      = filter (fun e => isNetworkCall e = true) (ipxe.events s)
        ++ [EvSchematicCreate sch]
      ∧ match imagefactory.SchematicCreate_reply (imagefactory.factoryClient c) sch with
        | (_, Some err) => failed ("failed to create schematic: " +:+ Error err)
        | (schematicID, None) =>
            if decide (schematicID = "") then failed "schematic ID is required"
            else if decide (ipxe.TalosVersion (ipxe.options handler) = "")
            then failed "talos version is required"
            else
              http.status (ipxe.w s') = Some 200
              ∧ http.body (ipxe.w s')
                = ipxe.ipxeScriptTemplateFormat
                    (imagefactory.GetIPXEURL c schematicID
                       (ipxe.TalosVersion (ipxe.options handler)) arch).1
        end
  end.
Proof.
  intros Hboot Hst Hbody Hclient Hid. cbv zeta.
  boot_branch Hboot.
  destruct s as [[hd st bd we] cl ev]. cbn in Hst, Hbody. subst st bd.
  unfold ipxe.bootViaFactoryIPXEScript. rewrite Hid, Hclient.
  rewrite decide_True by reflexivity.
  cbn [ipxe.ofClient ipxe.EnsureSchematic ipxe.GetIPXEURL].
  unfold imagefactory.EnsureSchematic, imagefactory.SchematicCreate.
  destruct (Marshal _) as [marshaled [merr|]]; cbn [snd].
  { unfold_M. destruct we; cbn; rewrite !filter_app; cbn;
      rewrite ?app_nil_r; repeat split; reflexivity. }
  unfold imagefactory.GetIPXEURL.
  set (arch := ipxe.normalizedArch _).
  assert (Harch : arch ≠ "").
  { subst arch. rewrite normalizedArch_cases. case_decide; discriminate. }
  destruct (imagefactory.SchematicCreate_reply _ _) as [schematicID [err|]];
    unfold_M.
  - destruct we; cbn; rewrite !filter_app; cbn;
      rewrite ?app_nil_r; repeat split; reflexivity.
  - destruct (decide (schematicID = "")) as [Hempty|Hempty];
      [|destruct (decide (ipxe.TalosVersion (ipxe.options handler) = ""))
          as [Hver|Hver]];
      [| |destruct (decide (arch = "")) as [Hnone|_]; [contradiction|]];
      cbn; destruct we; cbn; rewrite !filter_app; cbn;
      rewrite ?app_nil_r; repeat split; reflexivity.
Qed.

Lemma ServeHTTP_factory_resolution_witness :
  http.body (ipxe.w (ipxe.ServeHTTP (sample.handler "")
                       (sample.request "boot.ipxe" "arm64") sample.world).2)
  = ipxe.ipxeScriptTemplateFormat
      "https://pxe.factory.talos.dev/pxe/schematic-arm/v1.2.3/metal-arm64"
  ∧ http.status
      (ipxe.w (ipxe.ServeHTTP
                 (sample.withClient (sample.handler "")
                    (ipxe.ofClient sample.brokenMarshal (sample.client [])))
                 (sample.request "boot.ipxe" "arm64") sample.world).2)
    = Some 500.
Proof.
  split.
  - exact (proj2 (proj2 (ServeHTTP_factory_resolution (sample.handler "")
                           (sample.request "boot.ipxe" "arm64") sample.world
                           sample.Marshal (sample.client [])
                           eq_refl eq_refl eq_refl eq_refl eq_refl))).
  - exact (proj1 (proj2 (ServeHTTP_factory_resolution
                           (sample.withClient (sample.handler "")
                              (ipxe.ofClient sample.brokenMarshal (sample.client [])))
                           (sample.request "boot.ipxe" "arm64") sample.world
                           sample.brokenMarshal (sample.client [])
                           eq_refl eq_refl eq_refl eq_refl eq_refl))).
Defined.

(** X6: with a fixed schematic ID, a boot request served through the image
    factory client never contacts the factory.  With a Talos version
    configured it always succeeds, whatever the query: status 200 and the
    chain script for the fixed ID and the normalized architecture, with
    [-secureboot] when secure boot is on.  With an empty Talos version it
    always fails with status 500. *)
Theorem ServeHTTP_fixed_offline (handler : ipxe.Handler) (req : http.Request)
    (s : ipxe.World) (Marshal : schematic.Schematic -> string * option error)
    (c : imagefactory.Client) :
  http.PathValue req "script" = ipxe.bootScriptName ->
  http.status (ipxe.w s) = None ->
  http.body (ipxe.w s) = "" ->
  ipxe.imageFactoryClient handler = ipxe.ofClient Marshal c ->
  ipxe.SchematicID (ipxe.options handler) ≠ "" ->
  let s' := (ipxe.ServeHTTP handler req s).2 in
  let url :=
    imagefactory.pxeBaseURL c +:+ "/pxe/"
      +:+ ipxe.SchematicID (ipxe.options handler) +:+ "/"
      +:+ ipxe.TalosVersion (ipxe.options handler) +:+ "/metal-"
      +:+ ipxe.normalizedArch (http.Values_Get (http.URL_Query req) "arch") in
  filter (fun e => isNetworkCall e = true) (ipxe.events s')
  = filter (fun e => isNetworkCall e = true) (ipxe.events s)
  ∧ if decide (ipxe.TalosVersion (ipxe.options handler) = "") then
      http.status (ipxe.w s') = Some 500
      ∧ http.body (ipxe.w s')
        = "failed to get iPXE script: failed to get schematic IPXE URL: talos version is required"
    else
      http.status (ipxe.w s') = Some 200
      ∧ http.body (ipxe.w s')
        = ipxe.ipxeScriptTemplateFormat
            (if imagefactory.secureBootEnabled c then url +:+ "-secureboot"
             else url).
Proof.
  intros Hboot Hst Hbody Hclient Hid. cbv zeta.
  boot_branch Hboot.
  destruct s as [[hd st bd we] cl ev]. cbn in Hst, Hbody. subst st bd.
  unfold ipxe.bootViaFactoryIPXEScript. rewrite Hclient.
  rewrite decide_False by exact Hid.
  cbn [ipxe.ofClient ipxe.GetIPXEURL]. unfold imagefactory.GetIPXEURL.
  set (arch := ipxe.normalizedArch _).
  assert (Harch : arch ≠ "").
  { subst arch. rewrite normalizedArch_cases. case_decide; discriminate. }
  unfold_M.
  destruct (decide (ipxe.SchematicID (ipxe.options handler) = ""));
    [contradiction|].
  destruct (decide (arch = "")); [contradiction|].
  destruct (decide (ipxe.TalosVersion (ipxe.options handler) = "")) as [Hver|Hver];
    cbn; destruct we; cbn; rewrite !filter_app; cbn;
    rewrite ?app_nil_r; repeat split; reflexivity.
Qed.

Lemma ServeHTTP_fixed_offline_witness :
  let s' := (ipxe.ServeHTTP (sample.handler "img-1")
               (sample.request "boot.ipxe" "riscv64") sample.world).2 in
  filter (fun e => isNetworkCall e = true) (ipxe.events s') = []
  ∧ http.status (ipxe.w s') = Some 200
  ∧ http.body (ipxe.w s')
    = ipxe.ipxeScriptTemplateFormat
        "https://pxe.factory.talos.dev/pxe/img-1/v1.2.3/metal-amd64".
Proof.
  exact (ServeHTTP_fixed_offline (sample.handler "img-1")
           (sample.request "boot.ipxe" "riscv64") sample.world
           sample.Marshal (sample.client [])
           eq_refl eq_refl eq_refl eq_refl ltac:(discriminate)).
Defined.

(** ** Constructing the handler, and serving with it *)

Section Constructed.

Variable Fields : string -> list string.
Variable buildInitScript : string -> Z -> string * option error.
Variable patchBinaries : string -> Logger -> Eff (option error).
Variable configServerEnabled : bool.
Variable client : ipxe.ImageFactoryClient.
Variable options : ipxe.HandlerOptions.
Variable logger : Logger.

Local Abbreviation new :=
  (ipxe.NewHandler Fields buildInitScript patchBinaries configServerEnabled
     client options logger).
Local Abbreviation built :=
  (buildInitScript (ipxe.APIAdvertiseAddress options) (ipxe.APIPort options)).
Local Abbreviation customized :=
  (ipxe.Extensions options ≠ [] ∨ ipxe.ExtraKernelArgs options ≠ "").

Lemma customized_length :
  (0 < length (ipxe.Extensions options))%nat
  ∨ (0 < String.length (ipxe.ExtraKernelArgs options))%nat
  <-> customized.
Proof.
  destruct (ipxe.Extensions options), (ipxe.ExtraKernelArgs options); simpl;
    split; intros [H|H]; try lia; try contradiction;
    (left; (discriminate || lia)) || (right; (discriminate || lia)).
Qed.

(** The first component of [NewHandler], by what its steps answer. *)
Lemma NewHandler_fst :
  new.1
  = if decide (ipxe.SchematicID options ≠ "" ∧ customized) then
      (None, Some (errorString
         "schematicID cannot be used with extensions or extraKernelArgs"))
    else
      match built.2 with
      | Some err => (None, Some (Errorf_w "failed to build init script: " err))
      | None =>
          match (patchBinaries built.1 logger).1 with
          | Some err => (None, Some err)
          | None =>
              (Some {| ipxe.imageFactoryClient := client;
                       ipxe.options := options;
                       ipxe.kernelArgs :=
                         Fields (ipxe.ExtraKernelArgs options)
                         ++ (if configServerEnabled
                             then [ipxe.talosConfigKernelArg options] else []);
                       ipxe.initScript := built.1;
                       ipxe.logger := logger |}, None)
          end
      end.
Proof.
  unfold ipxe.NewHandler.
  destruct (decide (ipxe.SchematicID options ≠ "")) as [Hid|Hid].
  - destruct (decide (_ ∨ _)) as [Hc|Hc].
    + rewrite decide_True; [reflexivity|].
      split; [exact Hid | apply customized_length; exact Hc].
    + rewrite decide_False by (intros [_ Hc']; apply Hc, customized_length, Hc').
      rewrite Eff_bind_fst.
      destruct built as [initScript [err|]]; [reflexivity|].
      rewrite !Eff_bind_fst. cbn [snd fst].
      destruct (patchBinaries initScript logger).1; [reflexivity|].
      rewrite !Eff_bind_fst. destruct configServerEnabled;
        rewrite ?Eff_bind_fst, ?app_nil_r; reflexivity.
  - rewrite decide_False by tauto.
    destruct built as [initScript [err|]]; [reflexivity|].
    rewrite !Eff_bind_fst. cbn [snd fst].
    destruct (patchBinaries initScript logger).1; [reflexivity|].
    rewrite !Eff_bind_fst. destruct configServerEnabled;
      rewrite ?Eff_bind_fst, ?app_nil_r; reflexivity.
Qed.

(** X7: [NewHandler] answers a handler or an error, never both and never
    neither.  It answers a handler exactly when the options pass the
    schematic check, the init script builds and the binaries are patched. *)
Theorem NewHandler_outcome :
  (new.1.1 = None <-> new.1.2 ≠ None)
  ∧ (new.1.2 = None
     <-> ¬ (ipxe.SchematicID options ≠ "" ∧ customized)
         ∧ built.2 = None
         ∧ (patchBinaries built.1 logger).1 = None).
Proof.
  rewrite NewHandler_fst.
  destruct (decide (_ ∧ _)) as [Hbad|Hbad]; cbn [fst snd].
  { split; [split; [discriminate | reflexivity]|].
    split; [discriminate | intros [Hok _]; contradiction]. }
  destruct built.2 as [err|]; cbn [fst snd].
  { split; [split; [discriminate | reflexivity]|].
    split; [discriminate | intros (_ & Hb & _); discriminate]. }
  destruct (patchBinaries built.1 logger).1 as [err|]; cbn [fst snd].
  { split; [split; [discriminate | reflexivity]|].
    split; [discriminate | intros (_ & _ & Hp); discriminate]. }
  split; [split; [discriminate | intros H; contradiction]|].
  split; [intros _; repeat split; assumption | reflexivity].
Qed.

(** X8: when the init script cannot be built, [NewHandler] wraps the error
    under "failed to build init script: " and the binaries are left alone:
    whatever [patchBinaries] would do, result and log are the same. *)
Theorem NewHandler_build_failure (err : error) :
  ¬ (ipxe.SchematicID options ≠ "" ∧ customized) ->
  built.2 = Some err ->
  new.1 = (None, Some (Errorf_w "failed to build init script: " err))
  ∧ (forall err', new.1.2 = Some err' -> Unwrap err' = Some err)
  ∧ (forall patchBinaries',
       ipxe.NewHandler Fields buildInitScript patchBinaries' configServerEnabled
         client options logger = new).
Proof.
  intros Hbad Hbuilt.
  assert (Hfst : new.1 = (None, Some (Errorf_w "failed to build init script: " err))).
  { rewrite NewHandler_fst, decide_False by exact Hbad.
    rewrite Hbuilt. reflexivity. }
  split; [exact Hfst|]. split.
  - intros err' Herr'. rewrite Hfst in Herr'. cbn in Herr'.
    injection Herr' as <-. reflexivity.
  - intros patchBinaries'. unfold ipxe.NewHandler.
    destruct built as [initScript e]. cbn in Hbuilt. subst e. reflexivity.
Qed.

(** X9: an error of [patchBinaries] is answered as it is, not wrapped, and
    nothing is logged after it: the log ends with the "patch iPXE binaries"
    message and what [patchBinaries] itself logged. *)
Theorem NewHandler_patch_failure (err : error) :
  ¬ (ipxe.SchematicID options ≠ "" ∧ customized) ->
  built.2 = None ->
  (patchBinaries built.1 logger).1 = Some err ->
  new.1 = (None, Some err)
  ∧ exists before,
      new.2 = before ++ EvLog InfoLevel "patch iPXE binaries" (context logger)
                :: (patchBinaries built.1 logger).2.
Proof.
  intros Hbad Hbuilt Hpatch. split.
  { rewrite NewHandler_fst, decide_False by exact Hbad.
    rewrite Hbuilt, Hpatch. reflexivity. }
  unfold ipxe.NewHandler.
  destruct built as [initScript e] eqn:Hb. cbn in Hbuilt, Hpatch. subst e.
  assert (Htail :
    (log InfoLevel logger "patch iPXE binaries" [] ;;
     e ← patchBinaries initScript logger ;
     match e with
     | Some e => mret (None, Some e)
     | None =>
         log InfoLevel logger "successfully patched iPXE binaries" [] ;;
         kernelArgs ←
           (if configServerEnabled then
              log DebugLevel logger
                "injected talos config kernel arg to the iPXE requests"
                [zap_String "arg" (ipxe.talosConfigKernelArg options)] ;;
              mret (Fields (ipxe.ExtraKernelArgs options)
                    ++ [ipxe.talosConfigKernelArg options])
            else mret (Fields (ipxe.ExtraKernelArgs options))) ;
         mret (Some {| ipxe.imageFactoryClient := client;
                       ipxe.options := options;
                       ipxe.kernelArgs := kernelArgs;
                       ipxe.initScript := initScript;
                       ipxe.logger := logger |}, None)
     end : Eff (option ipxe.Handler * option error)).2
    = EvLog InfoLevel "patch iPXE binaries" (context logger)
        :: (patchBinaries initScript logger).2).
  { rewrite Eff_bind_snd. cbn [log emit snd fst app]. rewrite app_nil_r.
    rewrite Eff_bind_snd, Hpatch. cbn. rewrite app_nil_r. reflexivity. }
  destruct (decide (ipxe.SchematicID options ≠ "")) as [Hid|Hid].
  - destruct (decide (_ ∨ _)) as [Hc|Hc].
    { exfalso. apply Hbad. split; [exact Hid|]. apply customized_length, Hc. }
    rewrite Eff_bind_snd.
    eexists. f_equal. exact Htail.
  - exists []. exact Htail.
Qed.

(** X10: a handler that [NewHandler] answered serves what it was built
    from.  On [init.ipxe] it writes the script [buildInitScript] rendered
    for the advertised address and port.  On [boot.ipxe] its first
    invocation on the client is, without a fixed schematic ID,
    [EnsureSchematic] with the configured extensions and with the words of
    [ExtraKernelArgs], then the config kernel argument when the config
    server is enabled, then the console arguments; with a fixed schematic
    ID it is [GetIPXEURL] for that ID and the configured Talos version. *)
Theorem NewHandler_serves (handler : ipxe.Handler) (req : http.Request)
    (s : ipxe.World) :
  new.1 = (Some handler, None) ->
  let arch := ipxe.normalizedArch (http.Values_Get (http.URL_Query req) "arch") in
  let s1 := (ipxe.ServeHTTP handler req s).2 in
  (http.PathValue req "script" = ipxe.initScriptName ->
     http.body (ipxe.w s1) = http.body (ipxe.w s) +:+ built.1
     ∧ ipxe.calls s1 = ipxe.calls s)
  ∧ (http.PathValue req "script" = ipxe.bootScriptName ->
     exists rest,
       ipxe.calls s1
       = ipxe.calls s ++
         (if decide (ipxe.SchematicID options = "") then
            ipxe.CallEnsureSchematic (ipxe.Extensions options)
              (Fields (ipxe.ExtraKernelArgs options)
               ++ (if configServerEnabled
                   then [ipxe.talosConfigKernelArg options] else [])
               ++ ipxe.consoleKernelArgs handler arch)
          else
            ipxe.CallGetIPXEURL (ipxe.SchematicID options)
              (ipxe.TalosVersion options) arch) :: rest).
Proof.
  intros Hnew. cbv zeta.
  assert (Hh : handler
    = {| ipxe.imageFactoryClient := client;
         ipxe.options := options;
         ipxe.kernelArgs :=
           Fields (ipxe.ExtraKernelArgs options)
           ++ (if configServerEnabled
               then [ipxe.talosConfigKernelArg options] else []);
         ipxe.initScript := built.1;
         ipxe.logger := logger |}).
  { rewrite NewHandler_fst in Hnew.
    destruct (decide (_ ∧ _)); [discriminate|].
    destruct built.2; [discriminate|].
    destruct (patchBinaries built.1 logger).1; [discriminate|].
    injection Hnew as <-. reflexivity. }
  split.
  - intros Hinit. unfold ipxe.ServeHTTP. rewrite Hinit.
    rewrite decide_True by reflexivity.
    rewrite Hh. destruct s as [[hd st bd we] cl ev].
    unfold_M. destruct st, we; split; reflexivity.
  - intros Hboot.
    rewrite (ServeHTTP_boot_calls handler req Hboot s), boot_calls.
    subst handler. cbn [ipxe.options ipxe.kernelArgs].
    rewrite <- app_assoc.
    destruct (decide (ipxe.SchematicID options = "")); eauto.
Qed.

End Constructed.

Lemma NewHandler_build_failure_witness :
  (ipxe.NewHandler sample.Fields sample.brokenBuild sample.patchBinaries true
     sample.unreachable (sample.options "img-1") sample.noLogger).1
  = (None, Some (Errorf_w "failed to build init script: "
                   (errorString "failed to execute template")))
  ∧ ipxe.NewHandler sample.Fields sample.brokenBuild sample.brokenPatch true
      sample.unreachable (sample.options "img-1") sample.noLogger
    = ipxe.NewHandler sample.Fields sample.brokenBuild sample.patchBinaries true
        sample.unreachable (sample.options "img-1") sample.noLogger.
Proof.
  assert (Hok : ¬ (ipxe.SchematicID (sample.options "img-1") ≠ ""
                   ∧ (ipxe.Extensions (sample.options "img-1") ≠ []
                      ∨ ipxe.ExtraKernelArgs (sample.options "img-1") ≠ ""))).
  { intros [_ [H|H]]; apply H; reflexivity. }
  destruct (NewHandler_build_failure sample.Fields sample.brokenBuild
              sample.patchBinaries true sample.unreachable
              (sample.options "img-1") sample.noLogger
              (errorString "failed to execute template") Hok eq_refl)
    as (Hfst & _ & Hany).
  split; [exact Hfst | apply Hany].
Defined.

Lemma NewHandler_patch_failure_witness :
  (ipxe.NewHandler sample.Fields sample.buildInitScript sample.brokenPatch true
     sample.unreachable (sample.options "") sample.noLogger).1
  = (None, Some (errorString "read-only file system")).
Proof.
  refine (proj1 (NewHandler_patch_failure sample.Fields sample.buildInitScript
                   sample.brokenPatch true sample.unreachable
                   (sample.options "") sample.noLogger
                   (errorString "read-only file system") _ eq_refl eq_refl)).
  intros [H _]. apply H. reflexivity.
Defined.

Lemma NewHandler_serves_witness :
  exists handler rest,
    (ipxe.NewHandler sample.Fields sample.buildInitScript sample.patchBinaries
       true sample.unreachable sample.customOptions sample.noLogger).1
    = (Some handler, None)
    ∧ ipxe.calls (ipxe.ServeHTTP handler (sample.request "boot.ipxe" "arm64")
                    sample.world).2
      = ipxe.CallEnsureSchematic ["siderolabs/hello-world-service"]
          ["talos.dashboard.disabled=1"; "quiet";
           "talos.config=http://10.0.0.1:50084/config?u=${uuid}";
           "console=tty0"; "console=ttyAMA0"] :: rest.
Proof.
  eexists. 
  destruct (proj2 (NewHandler_serves sample.Fields sample.buildInitScript
                     sample.patchBinaries true sample.unreachable
                     sample.customOptions sample.noLogger _
                     (sample.request "boot.ipxe" "arm64") sample.world eq_refl)
              eq_refl) as [rest Hrest].
  exists rest. split; [reflexivity|]. exact Hrest.
Defined.

(** ** What a request depends on *)

(** X11: under a fixed schematic ID the handler's base kernel arguments are
    dead: two handlers that differ in nothing else serve every request in
    the same way, response, invocations and log alike.  The same holds,
    whatever the schematic ID, for every request but [boot.ipxe]. *)
Theorem ServeHTTP_ignores_kernelArgs (h1 h2 : ipxe.Handler) (req : http.Request)
    (s : ipxe.World) :
  ipxe.SchematicID (ipxe.options h1) ≠ ""
  ∨ http.PathValue req "script" ≠ ipxe.bootScriptName ->
  ipxe.imageFactoryClient h1 = ipxe.imageFactoryClient h2 ->
  ipxe.options h1 = ipxe.options h2 ->
  ipxe.initScript h1 = ipxe.initScript h2 ->
  ipxe.logger h1 = ipxe.logger h2 ->
  ipxe.ServeHTTP h1 req s = ipxe.ServeHTTP h2 req s.
Proof.
  intros Hdead Hclient Hoptions Hinit Hlogger.
  destruct h1 as [c1 l1 k1 i1 o1], h2 as [c2 l2 k2 i2 o2].
  cbn in Hdead, Hclient, Hoptions, Hinit, Hlogger. subst c2 o2 i2 l2.
  unfold ipxe.ServeHTTP.
  destruct (decide (http.PathValue req "script" = ipxe.initScriptName));
    [reflexivity|].
  destruct (decide (http.PathValue req "script" = ipxe.bootScriptName))
    as [Hboot|Hboot]; [|reflexivity].
  destruct Hdead as [Hid|Hne]; [|contradiction].
  unfold ipxe.bootViaFactoryIPXEScript, ipxe.consoleKernelArgs.
  cbn [ipxe.options ipxe.imageFactoryClient ipxe.logger ipxe.kernelArgs].
  destruct (decide (ipxe.SchematicID o1 = "")); [contradiction|].
  reflexivity.
Qed.

Lemma ServeHTTP_ignores_kernelArgs_witness :
  ipxe.ServeHTTP (sample.handler "img-1") (sample.request "boot.ipxe" "arm64")
    sample.world
  = ipxe.ServeHTTP
      {| ipxe.imageFactoryClient := ipxe.ofClient sample.Marshal (sample.client []);
         ipxe.logger := sample.noLogger;
         ipxe.kernelArgs :=
           ["talos.config=http://10.0.0.1:50084/config?u=${uuid}"];
         ipxe.initScript := ipxe.initScript (sample.handler "img-1");
         ipxe.options := sample.options "img-1" |}
      (sample.request "boot.ipxe" "arm64") sample.world.
Proof.
  apply ServeHTTP_ignores_kernelArgs; try reflexivity.
  left. discriminate.
Defined.

(** X12: a response writer that fails to write changes neither the status
    nor the invocations on the client.  The handler only logs the failure,
    as its last event and at error level: "failed to write init script" for
    [init.ipxe], "failed to write response" for a boot script, "failed to
    write error response" for the report of a failed composition.  An
    unknown script writes no body, so nothing can fail. *)
Theorem ServeHTTP_write_failure (handler : ipxe.Handler) (req : http.Request)
    (s : ipxe.World) (err : error) :
  let script := http.PathValue req "script" in
  let ok := (ipxe.ServeHTTP handler req (ipxe.nextRequest s None)).2 in
  let failed := (ipxe.ServeHTTP handler req (ipxe.nextRequest s (Some err))).2 in
  http.status (ipxe.w failed) = http.status (ipxe.w ok)
  ∧ ipxe.calls failed = ipxe.calls ok
  ∧ ipxe.events failed
    = ipxe.events ok ++
      if decide (script = ipxe.initScriptName) then
        [EvLog ErrorLevel "failed to write init script"
           (context (ipxe.logger handler) ++ [zap_Error err])]
      else if decide (script = ipxe.bootScriptName) then
        [EvLog ErrorLevel
           (if decide (http.status (ipxe.w ok) = Some http.StatusOK)
            then "failed to write response"
            else "failed to write error response")
           (context (ipxe.logger handler) ++ [zap_Error err])]
      else [].
Proof.
  cbv zeta. unfold ipxe.ServeHTTP, ipxe.nextRequest.
  destruct (decide (http.PathValue req "script" = ipxe.initScriptName)).
  { unfold_M. repeat split; reflexivity. }
  destruct (decide (http.PathValue req "script" = ipxe.bootScriptName)).
  - unfold_M.
    destruct (decide (ipxe.SchematicID (ipxe.options handler) = ""));
      cbn; client_cases; rewrite ?app_nil_r, <- ?app_assoc;
      repeat split; reflexivity.
  - unfold_M. rewrite ?app_nil_r. repeat split; reflexivity.
Qed.

(** X13: the handler keeps no schematic between requests.  Without a fixed
    schematic ID, each of two boot requests served one after the other asks
    the client for the schematic again, also when both come from the same
    machine. *)
Theorem ServeHTTP_no_schematic_cache (handler : ipxe.Handler)
    (req1 req2 : http.Request) (s : ipxe.World) (writeError : option error) :
  ipxe.SchematicID (ipxe.options handler) = "" ->
  http.PathValue req1 "script" = ipxe.bootScriptName ->
  http.PathValue req2 "script" = ipxe.bootScriptName ->
  let s1 := (ipxe.ServeHTTP handler req1 s).2 in
  let s2 := (ipxe.ServeHTTP handler req2 (ipxe.nextRequest s1 writeError)).2 in
  length (filter ipxe.isEnsureSchematic (ipxe.calls s1))
  = S (length (filter ipxe.isEnsureSchematic (ipxe.calls s)))
  ∧ length (filter ipxe.isEnsureSchematic (ipxe.calls s2))
    = S (S (length (filter ipxe.isEnsureSchematic (ipxe.calls s)))).
Proof.
  intros Hid Hboot1 Hboot2. cbv zeta.
  assert (Hone : forall req t,
    http.PathValue req "script" = ipxe.bootScriptName ->
    length (filter ipxe.isEnsureSchematic (ipxe.calls (ipxe.ServeHTTP handler req t).2))
    = S (length (filter ipxe.isEnsureSchematic (ipxe.calls t)))).
  { intros req t Hboot.
    rewrite (ServeHTTP_boot_calls handler req Hboot t), boot_calls.
    rewrite decide_True by exact Hid.
    rewrite filter_app, length_app.
    rewrite filter_cons_True by exact I.
    destruct (ipxe.EnsureSchematic _ _ _).1 as [id [e|]]; cbn;
      rewrite ?decide_False by tauto; cbn; lia. }
  split; [apply Hone, Hboot1|].
  rewrite (Hone req2 _ Hboot2). cbn [ipxe.nextRequest ipxe.calls].
  rewrite (Hone req1 _ Hboot1). reflexivity.
Qed.

Lemma ServeHTTP_no_schematic_cache_witness :
  length (filter ipxe.isEnsureSchematic
            (ipxe.calls
               (ipxe.ServeHTTP (sample.handler "")
                  (sample.request "boot.ipxe" "amd64")
                  (ipxe.nextRequest
                     (ipxe.ServeHTTP (sample.handler "")
                        (sample.request "boot.ipxe" "amd64") sample.world).2
                     None)).2))
  = 2%nat.
Proof.
  exact (proj2 (ServeHTTP_no_schematic_cache (sample.handler "")
                  (sample.request "boot.ipxe" "amd64")
                  (sample.request "boot.ipxe" "amd64") sample.world None
                  eq_refl eq_refl eq_refl)).
Defined.

(** X14: on a writer that has not answered yet, every request ends with
    status 200, 404 or 500, and with 404 exactly when the script is neither
    [init.ipxe] nor [boot.ipxe].  Only [init.ipxe] touches the headers. *)
Theorem ServeHTTP_status (handler : ipxe.Handler) (req : http.Request)
    (s : ipxe.World) :
  http.status (ipxe.w s) = None ->
  let script := http.PathValue req "script" in
  let w' := ipxe.w (ipxe.ServeHTTP handler req s).2 in
  (http.status w' = Some http.StatusOK
   ∨ http.status w' = Some http.StatusNotFound
   ∨ http.status w' = Some http.StatusInternalServerError)
  ∧ (http.status w' = Some http.StatusNotFound
     <-> script ≠ ipxe.initScriptName ∧ script ≠ ipxe.bootScriptName)
  ∧ (script = ipxe.initScriptName -> http.status w' = Some http.StatusOK)
  ∧ (script ≠ ipxe.initScriptName -> http.header w' = http.header (ipxe.w s)).
Proof.
  intros Hst. cbv zeta. unfold ipxe.ServeHTTP.
  destruct s as [[hd st bd we] cl ev]. cbn in Hst. subst st.
  destruct (decide (http.PathValue req "script" = ipxe.initScriptName)) as [Hi|Hi].
  { unfold_M. destruct we; cbn; (split; [left; reflexivity|]);
      (split; [split; [discriminate | intros [H _]; contradiction]|]);
      (split; [reflexivity | contradiction]). }
  destruct (decide (http.PathValue req "script" = ipxe.bootScriptName)) as [Hb|Hb].
  - unfold_M.
    destruct (decide (ipxe.SchematicID (ipxe.options handler) = ""));
      cbn; client_cases; destruct we; cbn;
      (split; [(left; reflexivity) || (right; right; reflexivity)|]);
      (split; [split; [discriminate | intros [_ H]; contradiction]|]);
      (split; [contradiction | reflexivity]).
  - unfold_M. split; [right; left; reflexivity|].
    split; [split; [intros _; split; assumption | reflexivity]|].
    split; [contradiction | reflexivity].
Qed.

Lemma ServeHTTP_status_witness :
  http.status (ipxe.w (ipxe.ServeHTTP (sample.withClient (sample.handler "")
                                         sample.unreachable)
                         (sample.request "boot.ipxe" "amd64") sample.world).2)
  = Some http.StatusInternalServerError
  ∧ http.header (ipxe.w (ipxe.ServeHTTP (sample.handler "img-1")
                           (sample.request "boot.ipxe" "amd64") sample.world).2)
    = ∅.
Proof.
  split.
  - destruct (proj1 (ServeHTTP_status (sample.withClient (sample.handler "")
                                         sample.unreachable)
                       (sample.request "boot.ipxe" "amd64") sample.world eq_refl))
      as [H|[H|H]]; [discriminate H | discriminate H | exact H].
  - refine (proj2 (proj2 (proj2 (ServeHTTP_status (sample.handler "img-1")
                       (sample.request "boot.ipxe" "amd64") sample.world eq_refl))) _).
    discriminate.
Defined.

(** X15: a boot request is logged under the architecture as the machine
    sent it, while the console arguments logged next are those of the
    normalized architecture.  When composing fails and the writer works,
    the last event is the error, logged on the handler's own logger,
    without the fields of the request. *)
Theorem ServeHTTP_boot_log (handler : ipxe.Handler) (req : http.Request)
    (s : ipxe.World) :
  http.PathValue req "script" = ipxe.bootScriptName ->
  let query := http.URL_Query req in
  let arch := ipxe.normalizedArch (http.Values_Get query "arch") in
  let kernelArgs := ipxe.kernelArgs handler ++ ipxe.consoleKernelArgs handler arch in
  let requestFields :=
    [zap_String "uuid" (http.Values_Get query "uuid");
     zap_String "mac" (http.Values_Get query "mac");
     zap_String "arch" (http.Values_Get query "arch")] in
  let s1 := (ipxe.ServeHTTP handler req s).2 in
  (exists rest,
     ipxe.events s1
     = ipxe.events s ++
       EvLog InfoLevel "handle iPXE boot request"
         (context (ipxe.logger handler) ++ requestFields)
       :: EvLog DebugLevel "injected console kernel args to the iPXE request"
            ((context (ipxe.logger handler) ++ requestFields)
             ++ [zap_Strings "console_kernel_args"
                   (ipxe.consoleKernelArgs handler arch)])
       :: rest)
  ∧ (forall err,
       (ipxe.bootViaFactoryIPXEScript handler arch kernelArgs s).1.2 = Some err ->
       http.writeError (ipxe.w s) = None ->
       last (ipxe.events s1)
       = Some (EvLog ErrorLevel "failed to get iPXE script"
                 (context (ipxe.logger handler) ++ [zap_Error err]))).
Proof.
  intros Hboot. cbv zeta. boot_branch Hboot.
  destruct s as [[hd st bd we] cl ev].
  unfold_M.
  destruct (decide (ipxe.SchematicID (ipxe.options handler) = ""));
    cbn; client_cases; destruct st, we; cbn;
    rewrite <- ?app_assoc; cbn;
    (split; [eexists; reflexivity|]);
    intros err Herr Hwe; try discriminate Hwe; try discriminate Herr;
    injection Herr as <-;
    repeat (rewrite ?last_app, ?last_cons; cbn [last]); reflexivity.
Qed.

Lemma ServeHTTP_boot_log_witness :
  last (ipxe.events
          (ipxe.ServeHTTP (sample.withClient (sample.handler "") sample.unreachable)
             (sample.request "boot.ipxe" "i386") sample.world).2)
  = Some (EvLog ErrorLevel "failed to get iPXE script"
            [zap_Error
               (Errorf_w "failed to get schematic IPXE URL: "
                  (Errorf_w "failed to create schematic: "
                     (errorString "connection refused")))]).
Proof.
  exact (proj2 (ServeHTTP_boot_log
                  (sample.withClient (sample.handler "") sample.unreachable)
                  (sample.request "boot.ipxe" "i386") sample.world eq_refl)
               _ eq_refl eq_refl).
Defined.
